(** * g30esli_interface: drive-by-wire bridge of the YMC G30ES-Li vehicle

    Shallow embedding of
    [ros/src/actuation/vehicles/packages/ymc/node/g30esli_interface/g30esli_interface.cpp].

    Conventions of the embedding.
    - A C++ [double] is an exact rational ([Q]); the rounding error of
      binary64 arithmetic is not modelled.  Every concrete input used below
      is either computed without rounding under binary64 or stays well away
      from an integer boundary after scaling, so the value stored by the
      program is the same under binary64.
    - Fixed-width integers are [Z] with the conversion written out.
    - An expression whose behaviour the C++ standard leaves undefined, and an
      exception that leaves a thread function, are outcomes of their own.
    - The three threads are interleaved event by event (sequential
      consistency); the file-scope variables are one record. *)

From Stdlib Require Import ZArith QArith Qround Qabs Lia Lqa.
From Stdlib Require Import List String Ascii Bool.
Import ListNotations.

Local Open Scope Z_scope.

(** ** The C++ layer *)

Module Cxx.

(** Exceptions of the standard library that the program can raise. *)
Inductive exn : Type :=
| out_of_range
| invalid_argument.

(** Outcome of running a piece of C++. *)
Inductive result (A : Type) : Type :=
| Ok (a : A)
| Throw (e : exn)
| Undefined.

Arguments Ok {A} a.
Arguments Throw {A} e.
Arguments Undefined {A}.

Definition bind {A B : Type} (m : result A) (k : A -> result B) : result B :=
  match m with
  | Ok a => k a
  | Throw e => Throw e
  | Undefined => Undefined
  end.

Definition is_ok {A : Type} (m : result A) : bool :=
  match m with Ok _ => true | _ => false end.

(** [unsigned char] arithmetic wraps modulo 2^8. *)
Definition to_uchar (z : Z) : Z := z mod 256.

(** Conversion of a floating value to an integer type discards the
    fractional part (truncation toward zero) ... *)
Definition Qtrunc (x : Q) : Z :=
  if Qle_bool 0 x then Qfloor x else Qceiling x.

(** ... and is undefined when the truncated value does not fit. *)
Definition to_uint16 (x : Q) : result Z :=
  let z := Qtrunc x in
  if (0 <=? z) && (z <=? 65535) then Ok z else Undefined.

Definition to_int16 (x : Q) : result Z :=
  let z := Qtrunc x in
  if (-32768 <=? z) && (z <=? 32767) then Ok z else Undefined.

(** [v[i]] on a [std::vector]: undefined past the end. *)
Definition index {A : Type} (v : list A) (i : nat) : result A :=
  match nth_error v i with
  | Some a => Ok a
  | None => Undefined
  end.

(** [v.at(i)]: throws [std::out_of_range] past the end. *)
Definition at_ {A : Type} (v : list A) (i : nat) : result A :=
  match nth_error v i with
  | Some a => Ok a
  | None => Throw out_of_range
  end.

(** [v.erase(v.begin(), v.begin() + n)]: the iterator range must lie
    inside the vector. *)
Definition erase_front {A : Type} (v : list A) (n : nat) : result (list A) :=
  if (n <=? List.length v)%nat then Ok (skipn n v) else Undefined.

(** [std::isspace] in the "C" locale. *)
Definition isspace (c : ascii) : bool :=
  let n := nat_of_ascii c in
  ((n =? 32) || ((9 <=? n) && (n <=? 13)))%nat.

Definition digit_of (c : ascii) : option Z :=
  let n := Z.of_nat (nat_of_ascii c) in
  if (48 <=? n) && (n <=? 57) then Some (n - 48) else None.

(** Longest prefix of decimal digits, as a list of digit values. *)
Fixpoint take_digits (s : string) : list Z :=
  match s with
  | EmptyString => []
  | String c s' =>
      match digit_of c with
      | Some d => d :: take_digits s'
      | None => []
      end
  end.

Fixpoint skip_space (s : string) : string :=
  match s with
  | String c s' => if isspace c then skip_space s' else s
  | EmptyString => EmptyString
  end.

Definition decimal (ds : list Z) : Z :=
  fold_left (fun acc d => 10 * acc + d) ds 0.

(** [std::stoi(s, nullptr, 10)]: leading white space is skipped, an
    optional sign is read, then as many digits as there are; no digit is
    [std::invalid_argument], a value outside [int] is [std::out_of_range];
    what follows the digits is ignored. *)
Definition stoi (s : string) : result Z :=
  let s1 := skip_space s in
  let '(neg, s2) :=
    match s1 with
    | String "-"%char r => (true, r)
    | String "+"%char r => (false, r)
    | _ => (false, s1)
    end in
  match take_digits s2 with
  | [] => Throw invalid_argument
  | ds =>
      let v := if neg then - decimal ds else decimal ds in
      if (-2147483648 <=? v) && (v <=? 2147483647) then Ok v
      else Throw out_of_range
  end.

(** [fgets(buf, n, fp)] on the unread part of a stream: at most [n - 1]
    characters, stopping after a newline; [None] at end of stream. *)
Fixpoint fgets_chars (k : nat) (s : string) : string * string :=
  match k, s with
  | O, _ => (EmptyString, s)
  | _, EmptyString => (EmptyString, EmptyString)
  | S k', String c s' =>
      if Ascii.eqb c "010"%char then (String c EmptyString, s')
      else let '(l, r) := fgets_chars k' s' in (String c l, r)
  end.

Definition fgets (n : nat) (s : string) : option (string * string) :=
  match s with
  | EmptyString => None
  | _ => Some (fgets_chars (n - 1) s)
  end.

End Cxx.

Import Cxx.

Declare Scope cxx_scope.
Delimit Scope cxx_scope with cxx.
Notation "x <- m ;; k" := (bind m (fun x => k))
  (at level 61, m at next level, right associativity) : cxx_scope.

(** ** Helpers of the package that the node calls *)

Module ymc.

(** Modelled from the spec: [ymc::splitString] (g30esli_interface_util.h is
    not part of the sources at hand).  The telemetry line is split on white
    space; the tokens are the maximal runs of other characters. *)
Fixpoint splitString_from (cur : option string) (s : string) : list string :=
  match s with
  | EmptyString =>
      match cur with Some t => [t] | None => [] end
  | String c s' =>
      if isspace c then
        match cur with
        | Some t => t :: splitString_from None s'
        | None => splitString_from None s'
        end
      else
        let t := match cur with Some t => t | None => EmptyString end in
        splitString_from (Some (t ++ String c EmptyString)%string) s'
  end.

Definition splitString (s : string) : list string := splitString_from None s.

(** Modelled from the spec: the two bytes of a 16-bit field of the frame.
    The spec leaves the byte order open; [msb_first] chooses it. *)
Definition bytes16 (msb_first : bool) (w : Z) : list Z :=
  let u := w mod 65536 in
  if msb_first then [u / 256; u mod 256] else [u mod 256; u / 256].

(** Modelled from the spec: [ymc::setCanData] (can_utils/ymc_can.h is not
    part of the sources at hand).  byte0 = mode, byte1 = shift,
    bytes2-3 = velocity, bytes4-5 = steering angle in one and the same byte
    order, byte6 = brake, byte7 = heartbeat. *)
Definition setCanData (msb_first : bool)
    (mode shift velocity steering brake heart_beat : Z) : list Z :=
  [mode; shift] ++ bytes16 msb_first velocity ++ bytes16 msb_first steering
    ++ [brake; heart_beat].

End ymc.

(** ** The node *)

(** File-scope variables of the anonymous namespace. *)
Record Globals : Type := mkGlobals {
  g_wheel_base : Q;
  g_mode : Z;
  g_device : string;
  g_loop_rate : Z;
  g_stop_time_sec : Z;
  g_target_velocity_ui16 : Z;
  g_manual_target_velocity_ui16 : Z;
  g_steering_angle_deg_i16 : Z;
  g_manual_steering_angle_deg_i16 : Z;
  g_current_vel_kmph : Q;
  g_terminate_thread : bool;
  g_automode : bool;
  g_shift : Z;
  g_brake : Z
}.

Definition set_g_mode (v : Z) (g : Globals) : Globals :=
  mkGlobals (g_wheel_base g) v (g_device g) (g_loop_rate g) (g_stop_time_sec g)
    (g_target_velocity_ui16 g) (g_manual_target_velocity_ui16 g)
    (g_steering_angle_deg_i16 g) (g_manual_steering_angle_deg_i16 g)
    (g_current_vel_kmph g) (g_terminate_thread g) (g_automode g)
    (g_shift g) (g_brake g).

Definition set_g_target_velocity_ui16 (v : Z) (g : Globals) : Globals :=
  mkGlobals (g_wheel_base g) (g_mode g) (g_device g) (g_loop_rate g)
    (g_stop_time_sec g) v (g_manual_target_velocity_ui16 g)
    (g_steering_angle_deg_i16 g) (g_manual_steering_angle_deg_i16 g)
    (g_current_vel_kmph g) (g_terminate_thread g) (g_automode g)
    (g_shift g) (g_brake g).

Definition set_g_manual_target_velocity_ui16 (v : Z) (g : Globals) : Globals :=
  mkGlobals (g_wheel_base g) (g_mode g) (g_device g) (g_loop_rate g)
    (g_stop_time_sec g) (g_target_velocity_ui16 g) v
    (g_steering_angle_deg_i16 g) (g_manual_steering_angle_deg_i16 g)
    (g_current_vel_kmph g) (g_terminate_thread g) (g_automode g)
    (g_shift g) (g_brake g).

Definition set_g_steering_angle_deg_i16 (v : Z) (g : Globals) : Globals :=
  mkGlobals (g_wheel_base g) (g_mode g) (g_device g) (g_loop_rate g)
    (g_stop_time_sec g) (g_target_velocity_ui16 g)
    (g_manual_target_velocity_ui16 g) v (g_manual_steering_angle_deg_i16 g)
    (g_current_vel_kmph g) (g_terminate_thread g) (g_automode g)
    (g_shift g) (g_brake g).

Definition set_g_manual_steering_angle_deg_i16 (v : Z) (g : Globals)
  : Globals :=
  mkGlobals (g_wheel_base g) (g_mode g) (g_device g) (g_loop_rate g)
    (g_stop_time_sec g) (g_target_velocity_ui16 g)
    (g_manual_target_velocity_ui16 g) (g_steering_angle_deg_i16 g) v
    (g_current_vel_kmph g) (g_terminate_thread g) (g_automode g)
    (g_shift g) (g_brake g).

Definition set_g_current_vel_kmph (v : Q) (g : Globals) : Globals :=
  mkGlobals (g_wheel_base g) (g_mode g) (g_device g) (g_loop_rate g)
    (g_stop_time_sec g) (g_target_velocity_ui16 g)
    (g_manual_target_velocity_ui16 g) (g_steering_angle_deg_i16 g)
    (g_manual_steering_angle_deg_i16 g) v (g_terminate_thread g)
    (g_automode g) (g_shift g) (g_brake g).

Definition set_g_terminate_thread (v : bool) (g : Globals) : Globals :=
  mkGlobals (g_wheel_base g) (g_mode g) (g_device g) (g_loop_rate g)
    (g_stop_time_sec g) (g_target_velocity_ui16 g)
    (g_manual_target_velocity_ui16 g) (g_steering_angle_deg_i16 g)
    (g_manual_steering_angle_deg_i16 g) (g_current_vel_kmph g) v
    (g_automode g) (g_shift g) (g_brake g).

Definition set_g_automode (v : bool) (g : Globals) : Globals :=
  mkGlobals (g_wheel_base g) (g_mode g) (g_device g) (g_loop_rate g)
    (g_stop_time_sec g) (g_target_velocity_ui16 g)
    (g_manual_target_velocity_ui16 g) (g_steering_angle_deg_i16 g)
    (g_manual_steering_angle_deg_i16 g) (g_current_vel_kmph g)
    (g_terminate_thread g) v (g_shift g) (g_brake g).

Definition set_g_shift (v : Z) (g : Globals) : Globals :=
  mkGlobals (g_wheel_base g) (g_mode g) (g_device g) (g_loop_rate g)
    (g_stop_time_sec g) (g_target_velocity_ui16 g)
    (g_manual_target_velocity_ui16 g) (g_steering_angle_deg_i16 g)
    (g_manual_steering_angle_deg_i16 g) (g_current_vel_kmph g)
    (g_terminate_thread g) (g_automode g) v (g_brake g).

Definition set_g_brake (v : Z) (g : Globals) : Globals :=
  mkGlobals (g_wheel_base g) (g_mode g) (g_device g) (g_loop_rate g)
    (g_stop_time_sec g) (g_target_velocity_ui16 g)
    (g_manual_target_velocity_ui16 g) (g_steering_angle_deg_i16 g)
    (g_manual_steering_angle_deg_i16 g) (g_current_vel_kmph g)
    (g_terminate_thread g) (g_automode g) (g_shift g) v.

(** Messages of the three subscribed topics. *)
Record TwistStamped : Type := mkTwist {
  linear_x : Q;
  angular_z : Q
}.

Record Joy : Type := mkJoy {
  buttons : list Z;
  axes : list Q
}.

(** The values the manual handler reads, with 0 standing for an element the
    message does not have (the handler itself is undefined when it reads such
    an element). *)
Definition button (msg : Joy) (i : nat) : Z := nth i (buttons msg) 0.
Definition axis (msg : Joy) (i : nat) : Q := nth i (axes msg) (0 # 1).

Local Open Scope cxx_scope.

(** Locals of [current_joy_callback], in km/h and degrees, before the factor
    10 is applied. *)
Definition r2_of (a4 : Q) : Q := (- a4 + 1.0) / 2.0.
Definition l2_of (a3 : Q) : Q := (- a3 + 1.0) / 2.0.

Definition steering_angle_ratio_deg (a3 : Q) : Q := 20.0 + 17.0 * l2_of a3.

Definition manual_target_steering_angle_deg (a0 a3 : Q) : Q :=
  steering_angle_ratio_deg a3 * a0 + 8.0.

(** Line 89: the condition; [||] evaluates its right side only when the left
    side is false. *)
Definition cancel_requested (msg : Joy) : result bool :=
  b0 <- index (buttons msg) 0 ;;
  if b0 =? 1 then Ok true else
  a1 <- index (axes msg) 1 ;;
  if negb (Qeq_bool a1 0) then Ok true else
  a2 <- index (axes msg) 2 ;;
  Ok (negb (Qeq_bool a2 0)).

(** Lines 94-99. *)
Definition manual_target_velocity (msg : Joy) : result Q :=
  b1 <- index (buttons msg) 1 ;;
  if b1 =? 1 then
    a4 <- index (axes msg) 4 ;;
    Ok (16.0 * r2_of a4 + 3.0)%Q
  else Ok 0.0%Q.

(** Lines 101-104. *)
Definition manual_target_steering (msg : Joy) : result Q :=
  a3 <- index (axes msg) 3 ;;
  a0 <- index (axes msg) 0 ;;
  Ok (manual_target_steering_angle_deg a0 a3).

(** Lines 106-112: the value [g_brake] ends with. *)
Definition brake_level (msg : Joy) : result Z :=
  b0 <- index (buttons msg) 0 ;;
  if b0 =? 1 then Ok 1 else
  b2 <- index (buttons msg) 2 ;;
  if b2 =? 1 then Ok 2 else
  b3 <- index (buttons msg) 3 ;;
  if b3 =? 1 then Ok 3 else Ok 0.

(** What the node sends to its collaborators, in program order. *)
Inductive action : Type :=
| cansender_init (device : string)
| popen (command : string)
| thread_changeMode
| thread_readCanData (fp : option string)
| cansender_send (send_id : string) (data : list Z)
| publish (frame_id : string) (linear_x : Q)
| join_threads
| pclose (fp : option string).

(** Messages delivered by [ros::spinOnce]. *)
Inductive message : Type :=
| twist_cmd (msg : TwistStamped)
| current_velocity (msg : TwistStamped)
| joy (msg : Joy).

(** One scheduling step of the process: a pass of the [while (ros::ok())]
    loop of [main], a keystroke seen by [changeMode], or a pass of the loop
    of [readCanData]. *)
Inductive step : Type :=
| loop_iteration (callbacks : list message)
| key (c : ascii)
| can_line.

(** ROS parameters read by [main] (lines 196-200). *)
Record Params : Type := mkParams {
  wheel_base : Q;
  mode : Z;
  device : string;
  loop_rate : Z;
  stop_time_sec : Z
}.

Definition default_params : Params := mkParams 2.4 8 "can0" 100 1.

(** State of [main]: the file-scope variables, the two function-local
    statics of the loop body ([brake] has a dynamic initialiser, which runs
    the first time control passes through its declaration) and the unread
    part of the stream read by thread [t2] ([None] is the null pointer). *)
Record Main : Type := mkMain {
  globals : Globals;
  brake : option Z;
  heart_beat : Z;
  candump : option string
}.

Section Node.

(** Declared in can_utils/ymc_can.h and g30esli_interface_util.h, which
    are not part of the sources at hand. *)
Variable computeTargetSteeringAngleDegree : Q -> Q -> Q -> Q.
Variable translateCanData : Z -> list string -> Z -> Q * Z.
Variable RET_NO_PUBLISH : Q.
Variable msb_first : bool.

(** Lines 69-80. *)
Definition twist_cmd_callback (msg : TwistStamped) (g : Globals)
  : result Globals :=
  let target_velocity := (linear_x msg * 3.6)%Q in
  let target_steering_angle_deg :=
    computeTargetSteeringAngleDegree (angular_z msg) (linear_x msg)
      (g_wheel_base g) in
  let target_steering_angle_deg := (target_steering_angle_deg + 8.0)%Q in
  let target_velocity := (target_velocity * 10.0)%Q in
  let target_steering_angle_deg := (target_steering_angle_deg * 10.0)%Q in
  v <- to_uint16 target_velocity ;;
  let g := set_g_target_velocity_ui16 v g in
  s <- to_int16 (target_steering_angle_deg * -1.0)%Q ;;
  Ok (set_g_steering_angle_deg_i16 s g).

(** Lines 82-85. *)
Definition current_vel_callback (msg : TwistStamped) (g : Globals)
  : result Globals :=
  Ok (set_g_current_vel_kmph (linear_x msg * 3.6)%Q g).

(** Lines 87-128. *)
Definition current_joy_callback (msg : Joy) (g : Globals) : result Globals :=
  cancel <- cancel_requested msg ;;
  let g := if cancel : bool then set_g_automode false g else g in
  target_velocity <- manual_target_velocity msg ;;
  target_steering_angle_deg <- manual_target_steering msg ;;
  b <- brake_level msg ;;
  let g := set_g_brake b g in
  b5 <- index (buttons msg) 5 ;;
  let g := set_g_shift (to_uchar b5) g in
  let target_velocity := (target_velocity * 10.0)%Q in
  let target_steering_angle_deg := (target_steering_angle_deg * 10.0)%Q in
  v <- to_uint16 target_velocity ;;
  let g := set_g_manual_target_velocity_ui16 v g in
  s <- to_int16 (target_steering_angle_deg * -1.0)%Q ;;
  let g := set_g_manual_steering_angle_deg_i16 s g in
  b12 <- index (buttons msg) 12 ;;
  if b12 =? 1 then Ok (set_g_shift 0 (set_g_automode true g)) else Ok g.

(** Lines 136-145: a keystroke seen by [changeMode]. *)
Definition changeMode_key (c : ascii) (g : Globals) : Globals :=
  let g := if Ascii.eqb c " "%char then set_g_mode 3 g else g in
  if Ascii.eqb c "s"%char then set_g_mode 8 g else g.

(** Lines 156-182: the body of the loop of [readCanData] on the line that
    [fgets] delivered; the second component is the velocity it publishes. *)
Definition readCanData_line (raw_data : string) (g : Globals)
  : result (Globals * option Q) :=
  if (0 <? String.length raw_data)%nat then
    let parsed_data := ymc.splitString raw_data in
    data <- erase_front parsed_data 3 ;;
    id_token <- at_ parsed_data 1 ;;
    id <- stoi id_token ;;
    let '(_current_vel_mps, new_mode) :=
      translateCanData id data (g_mode g) in
    let g := set_g_mode new_mode g in
    if negb (Qeq_bool _current_vel_mps RET_NO_PUBLISH)
    then Ok (g, Some _current_vel_mps)
    else Ok (g, None)
  else Ok (g, None).

(** Lines 154-184: one pass of [while (fgets(buf, sizeof(buf), fp) != NULL
    && !g_terminate_thread)] with [char buf[64]]. *)
Definition readCanData_pass (m : Main) : list action * result Main :=
  match candump m with
  | None => ([], Undefined)
  | Some unread =>
      match fgets 64 unread with
      | None => ([], Ok m)
      | Some (buf, rest) =>
          if g_terminate_thread (globals m) then ([], Ok m) else
          match readCanData_line buf (globals m) with
          | Ok (g, Some v) =>
              ([publish "base_link" v],
               Ok (mkMain g (brake m) (heart_beat m) (Some rest)))
          | Ok (g, None) =>
              ([], Ok (mkMain g (brake m) (heart_beat m) (Some rest)))
          | Throw e => ([], Throw e)
          | Undefined => ([], Undefined)
          end
      end
  end.

(** [ros::spinOnce]: the pending callbacks, in order. *)
Fixpoint spinOnce (callbacks : list message) (g : Globals) : result Globals :=
  match callbacks with
  | [] => Ok g
  | twist_cmd msg :: rest => g <- twist_cmd_callback msg g ;; spinOnce rest g
  | current_velocity msg :: rest =>
      g <- current_vel_callback msg g ;; spinOnce rest g
  | joy msg :: rest => g <- current_joy_callback msg g ;; spinOnce rest g
  end.

(** Lines 225-231: what the loop body reads for the frame.  [brake_static]
    is the static local [brake]; its initialiser [g_brake] is evaluated only
    while it is still uninitialised. *)
Definition select (g : Globals) (brake_static : option Z)
  : Z * Z * Z * Z * Z :=
  let mode := to_uchar (g_mode g) in
  let shift := g_shift g in
  let target_velocity_ui16 :=
    if g_automode g then g_target_velocity_ui16 g
    else g_manual_target_velocity_ui16 g in
  let steering_angle_deg_i16 :=
    if g_automode g then g_steering_angle_deg_i16 g
    else g_manual_steering_angle_deg_i16 g in
  let brake :=
    match brake_static with Some b => b | None => g_brake g end in
  (mode, shift, target_velocity_ui16, steering_angle_deg_i16, brake).

(** Lines 222-275: one pass of [while (ros::ok())]. *)
Definition loop_body (callbacks : list message) (m : Main)
  : list action * result Main :=
  let '(mode, shift, target_velocity_ui16, steering_angle_deg_i16, brake) :=
    select (globals m) (brake m) in
  let data :=
    ymc.setCanData msb_first mode shift target_velocity_ui16
      steering_angle_deg_i16 brake (heart_beat m) in
  ([cansender_send "200" data],
   g <- spinOnce callbacks (globals m) ;;
   Ok (mkMain g (Some brake) (to_uchar (heart_beat m + 1)) (candump m))).

Definition exec (s : step) (m : Main) : list action * result Main :=
  match s with
  | loop_iteration callbacks => loop_body callbacks m
  | key c =>
      ([], Ok (mkMain (changeMode_key c (globals m)) (brake m)
                 (heart_beat m) (candump m)))
  | can_line => readCanData_pass m
  end.

Fixpoint run (schedule : list step) (m : Main) : list action * result Main :=
  match schedule with
  | [] => ([], Ok m)
  | s :: rest =>
      match exec s m with
      | (out, Ok m') =>
          let '(out', r) := run rest m' in ((out ++ out')%list, r)
      | (out, r) => (out, r)
      end
  end.

(** Variables with static storage duration start at zero unless they have
    an initialiser (lines 46-64); lines 196-200 then set the parameters. *)
Definition initial_globals (p : Params) : Globals :=
  mkGlobals (wheel_base p) (mode p) (device p) (loop_rate p)
    (stop_time_sec p) 0 0 0 0 0 false false 0 0.

(** Lines 189-283.  [popen_result] is what [popen("candump can0", "r")]
    returns: the text the stream will deliver, or [None] for a null
    pointer.  [schedule] lists the steps taken while [ros::ok()] holds. *)
Definition main (p : Params) (popen_result : option string)
    (schedule : list step) : list action * result Main :=
  let g := initial_globals p in
  let startup :=
    [cansender_init (g_device g); popen "candump can0";
     thread_changeMode; thread_readCanData popen_result] in
  match run schedule (mkMain g None 0 popen_result) with
  | (out, Ok m) =>
      ((startup ++ out ++ [join_threads; pclose popen_result])%list,
       Ok (mkMain (set_g_terminate_thread true (globals m)) (brake m)
             (heart_beat m) (candump m)))
  | (out, r) => ((startup ++ out)%list, r)
  end.

(** The payloads handed to the CAN sender, in order. *)
Fixpoint frames (out : list action) : list (list Z) :=
  match out with
  | [] => []
  | cansender_send _ data :: rest => data :: frames rest
  | _ :: rest => frames rest
  end.

Definition ticks (schedule : list step) : nat :=
  List.length
    (filter (fun s => match s with loop_iteration _ => true | _ => false end)
       schedule).

End Node.

(** ** Vocabulary of the statements and concrete inputs *)


(** The outcome of the manual handler in terms of the message alone. *)
Definition joy_cancel (msg : Joy) : bool :=
  (button msg 0 =? 1)
  || negb (Qeq_bool (axis msg 1) 0) || negb (Qeq_bool (axis msg 2) 0).

Definition joy_brake (msg : Joy) : Z :=
  if button msg 0 =? 1 then 1
  else if button msg 2 =? 1 then 2
  else if button msg 3 =? 1 then 3
  else 0.

Definition joy_velocity (msg : Joy) : Q :=
  if button msg 1 =? 1 then 16.0 * r2_of (axis msg 4) + 3.0 else 0.0.

Definition joy_steering (msg : Joy) : Q :=
  manual_target_steering_angle_deg (axis msg 0) (axis msg 3).

(** Stand-ins for the missing steering kinematics in concrete runs. *)
Definition no_steering (angular_z linear_x wheel_base : Q) : Q := 0.
Definition constant_steering (angular_z linear_x wheel_base : Q) : Q := 4.37.

Definition startup_globals : Globals := initial_globals default_params.
Definition auto_globals : Globals := set_g_automode true startup_globals.

(** Thirteen buttons, none pressed; steering stick pushed half way, both
    triggers released (a released trigger reads 1). *)
Definition steering_only_event : Joy :=
  mkJoy [0; 0; 0; 0; 0; 0; 0; 0; 0; 0; 0; 0; 0] [0.5; 0; 0; 1; 1]%Q.

(** Emergency button (0) and resume button (12) pressed together. *)
Definition emergency_and_resume_event : Joy :=
  mkJoy [1; 0; 0; 0; 0; 0; 0; 0; 0; 0; 0; 0; 1] [0; 0; 0; 1; 1]%Q.

(** Emergency button and both other brake buttons pressed. *)
Definition emergency_event : Joy :=
  mkJoy [1; 0; 1; 1; 0; 0; 0; 0; 0; 0; 0; 0; 0] [0; 0; 0; 1; 1]%Q.

(** Throttle enabled, throttle trigger half way, sensitivity trigger fully
    pulled, stick a quarter to one side. *)
Definition driving_event : Joy :=
  mkJoy [0; 1; 0; 0; 0; 0; 0; 0; 0; 0; 0; 0; 0] [0.25; 0; 0; -1; 0]%Q.

(** Stand-ins for the missing decoder in concrete runs: no telemetry line
    carries feedback, and the mode is left as it is. *)
Definition no_feedback (id : Z) (data : list string) (mode : Z) : Q * Z :=
  ((-1)%Q, mode).

Definition newline : string := String (ascii_of_nat 10) EmptyString.

(** Bytes 6 and 7 of a frame. *)
Definition brake_byte (data : list Z) : Z := nth 6 data 0.
Definition heartbeat_byte (data : list Z) : Z := nth 7 data 0.

(** The static local [brake] holds [b], or is still uninitialised and will
    take [b] from [g_brake]. *)
Definition brake_latched (b : Z) (m : Main) : Prop :=
  brake m = Some b \/ (brake m = None /\ g_brake (globals m) = b).

Definition heartbeats (out : list action) : list Z :=
  map heartbeat_byte (frames out).

(** The heartbeat bytes a counter produces from [h] on, for [n] frames. *)
Definition counting_from (h : Z) (n : nat) : list Z :=
  map (fun k => (h + Z.of_nat k) mod 256) (seq 0 n).

Definition brake_schedule : list step :=
  [loop_iteration [joy emergency_event]; loop_iteration []].

Definition long_schedule : list step := repeat (loop_iteration []) 300.

(** [main] with default parameters and the stand-ins above. *)
Definition demo_main
  : option string -> list step -> list action * result Main :=
  main no_steering no_feedback (-1)%Q true default_params.

Definition short_line : string := "can0 200" ++ newline.
Definition malformed_line : string := "can0 xyz [8] 08" ++ newline.
Definition sample_line : string :=
  "can0  200   [8]  08 00 00 00 01 00 01 29" ++ newline.

(** A result that is no exception. *)
Definition no_throw {A : Type} (r : result A) : Prop :=
  match r with Throw _ => False | _ => True end.

Definition map_result {A B : Type} (f : A -> B) (r : result A) : result B :=
  match r with
  | Ok a => Ok (f a)
  | Throw e => Throw e
  | Undefined => Undefined
  end.

(** The state without the speed kept for display. *)
Definition forget_current_vel (g : Globals) : Globals :=
  set_g_current_vel_kmph 0 g.

Definition forget_display (m : Main) : Main :=
  mkMain (forget_current_vel (globals m)) (brake m) (heart_beat m)
    (candump m).

Definition is_current_velocity (msg : message) : bool :=
  match msg with current_velocity _ => true | _ => false end.

(** The same step with the [current_velocity] messages taken out. *)
Definition without_current_velocity (s : step) : step :=
  match s with
  | loop_iteration callbacks =>
      loop_iteration
        (filter (fun msg => negb (is_current_velocity msg)) callbacks)
  | _ => s
  end.

(** The two keys [changeMode] reacts to, and the mode each selects. *)
Definition is_mode_key (c : ascii) : bool :=
  Ascii.eqb c " " || Ascii.eqb c "s".

Definition mode_of_key (c : ascii) : Z :=
  if Ascii.eqb c "s" then 8 else 3.

(** A joystick message as a gamepad driver delivers it: thirteen buttons or
    more, five axes or more, the axes the handler reads within [-1, 1]. *)
Definition joy_in_range (msg : Joy) : Prop :=
  (12 < List.length (buttons msg))%nat
  /\ (4 < List.length (axes msg))%nat
  /\ (-1 <= axis msg 0 /\ axis msg 0 <= 1)%Q
  /\ (-1 <= axis msg 3 /\ axis msg 3 <= 1)%Q
  /\ (-1 <= axis msg 4 /\ axis msg 4 <= 1)%Q.

(** [s] holds a newline character. *)
Fixpoint has_newline (s : string) : bool :=
  match s with
  | EmptyString => false
  | String c s' => Ascii.eqb c "010"%char || has_newline s'
  end.

(** Inputs of the concrete runs below. *)
Definition two_button_event : Joy := mkJoy [0; 1] [0; 0; 0; 1; 1]%Q.

Definition circle_and_triangle_event : Joy :=
  mkJoy [0; 0; 1; 1; 0; 1; 0; 0; 0; 0; 0; 0; 0] [0; 0; 0; 1; 1]%Q.

Definition resume_event : Joy :=
  mkJoy [0; 0; 0; 0; 0; 1; 0; 0; 0; 0; 0; 0; 1] [0; 0; 0; 1; 1]%Q.

Definition gentle_event : Joy :=
  mkJoy [0; 1; 0; 0; 0; 0; 0; 0; 0; 0; 0; 0; 0] [0.5; 0; 0; -1; 0.5]%Q.

Definition mode_3_feedback (id : Z) (data : list string) (mode : Z) : Q * Z :=
  (1.5%Q, 3).

Definition huge_identifier_line : string :=
  "can0 99999999999 [8] 08" ++ newline.

Definition sample_text : string := "can0  200   [8]  08 00 00 00 01 00 01 29".

(** The state of [main] before the first step, reading [text]. *)
Definition reading (text : string) : Main :=
  mkMain startup_globals None 0 (Some text).

(** ** Conversion of a floating value to an integer *)

Section Truncation.

Local Open Scope Q_scope.

Lemma Zlt_of_Qlt (a b : Z) : inject_Z a < inject_Z b -> (a < b)%Z.
Proof. rewrite Zlt_Qlt. trivial. Qed.

Lemma Qtrunc_nonneg (x : Q) : 0 <= x -> Qtrunc x = Qfloor x.
Proof.
  intros H. unfold Qtrunc.
  apply Qle_bool_iff in H. now rewrite H.
Qed.

Lemma Qtrunc_neg (x : Q) : x < 0 -> Qtrunc x = Qceiling x.
Proof.
  intros H. unfold Qtrunc.
  destruct (Qle_bool 0 x) eqn:E; [|reflexivity].
  apply Qle_bool_iff in E. lra.
Qed.

Lemma Qtrunc_comp (x y : Q) : x == y -> Qtrunc x = Qtrunc y.
Proof.
  intros H. unfold Qtrunc.
  assert (Hb : Qle_bool 0 x = Qle_bool 0 y).
  { destruct (Qle_bool 0 x) eqn:Ex, (Qle_bool 0 y) eqn:Ey; trivial.
    - apply Qle_bool_iff in Ex. rewrite H in Ex.
      apply Qle_bool_iff in Ex. congruence.
    - apply Qle_bool_iff in Ey. rewrite <- H in Ey.
      apply Qle_bool_iff in Ey. congruence. }
  rewrite Hb, (Qfloor_comp _ _ H), (Qceiling_comp _ _ H). reflexivity.
Qed.

Lemma Qfloor_bracket (x : Q) :
  inject_Z (Qfloor x) <= x /\ x < inject_Z (Qfloor x) + 1.
Proof.
  split; [apply Qfloor_le|].
  generalize (Qlt_floor x). rewrite inject_Z_plus. trivial.
Qed.

Lemma Qceiling_bracket (x : Q) :
  inject_Z (Qceiling x) - 1 < x /\ x <= inject_Z (Qceiling x).
Proof.
  split; [|apply Qle_ceiling].
  generalize (Qceiling_lt x). unfold Z.sub.
  rewrite inject_Z_plus. trivial.
Qed.

(** Truncation keeps the sign and drops less than one unit. *)
Lemma Qtrunc_toward_zero (x : Q) :
  (0 <= x -> inject_Z (Qtrunc x) <= x /\ x < inject_Z (Qtrunc x) + 1
             /\ (0 <= Qtrunc x)%Z)
  /\ (x < 0 -> inject_Z (Qtrunc x) - 1 < x /\ x <= inject_Z (Qtrunc x)
               /\ (Qtrunc x <= 0)%Z).
Proof.
  split; intros H.
  - rewrite (Qtrunc_nonneg x H).
    destruct (Qfloor_bracket x) as [Hl Hu]. repeat split; trivial.
    apply Zlt_succ_le, Zlt_of_Qlt. unfold Z.succ.
    rewrite inject_Z_plus. change (inject_Z 1) with 1.
    change (inject_Z 0) with 0. lra.
  - rewrite (Qtrunc_neg x H).
    destruct (Qceiling_bracket x) as [Hl Hu]. repeat split; trivial.
    apply Z.lt_succ_r, Zlt_of_Qlt. unfold Z.succ.
    rewrite inject_Z_plus. change (inject_Z 1) with 1.
    change (inject_Z 0) with 0. lra.
Qed.

Lemma Qtrunc_range (x : Q) (lo hi : Z) :
  (lo <= 0 <= hi)%Z ->
  inject_Z lo - 1 < x -> x < inject_Z hi + 1 -> (lo <= Qtrunc x <= hi)%Z.
Proof.
  intros [Hlo Hhi] Hl Hu.
  destruct (Qtrunc_toward_zero x) as [Hp Hn].
  destruct (Qlt_le_dec x 0) as [Hx|Hx].
  - destruct (Hn Hx) as (H1 & H2 & H3). split; [|lia].
    apply Z.lt_pred_le, Zlt_of_Qlt. unfold Z.pred.
    rewrite inject_Z_plus. change (inject_Z (-1)) with (-1). lra.
  - destruct (Hp Hx) as (H1 & H2 & H3). split; [lia|].
    apply Z.lt_succ_r, Zlt_of_Qlt. unfold Z.succ.
    rewrite inject_Z_plus. change (inject_Z 1) with 1. lra.
Qed.

Lemma Qtrunc_opp (x : Q) : Qtrunc (- x) = (- Qtrunc x)%Z.
Proof.
  destruct (Qlt_le_dec x 0) as [Hx|Hx].
  - rewrite (Qtrunc_neg x Hx), Qtrunc_nonneg by lra.
    unfold Qceiling. now rewrite Z.opp_involutive.
  - destruct (Qlt_le_dec 0 x) as [Hp|Hz].
    + rewrite (Qtrunc_nonneg x Hx), Qtrunc_neg by lra.
      unfold Qceiling. rewrite (Qfloor_comp (- - x) x) by ring. reflexivity.
    + assert (E : x == 0) by lra.
      rewrite (Qtrunc_comp (- x) 0), (Qtrunc_comp x 0) by lra. reflexivity.
Qed.

Lemma to_uint16_in_range (x : Q) :
  0 <= x -> x < 65536 -> to_uint16 x = Ok (Qfloor x).
Proof.
  intros H0 H1. unfold to_uint16.
  destruct (Qtrunc_range x 0 65535) as [Ha Hb]; try lia.
  - change (inject_Z 0) with 0. lra.
  - change (inject_Z 65535) with 65535. lra.
  - apply Z.leb_le in Ha, Hb. rewrite Ha, Hb. simpl.
    now rewrite Qtrunc_nonneg.
Qed.


Lemma to_uint16_ok (x : Q) (z : Z) :
  to_uint16 x = Ok z -> z = Qtrunc x /\ (0 <= z <= 65535)%Z.
Proof.
  unfold to_uint16.
  destruct (0 <=? Qtrunc x)%Z eqn:E1; [|discriminate].
  destruct (Qtrunc x <=? 65535)%Z eqn:E2; [|discriminate].
  simpl. intros [= <-]. apply Z.leb_le in E1, E2. auto.
Qed.

Lemma to_int16_in_range (x : Q) :
  -32769 < x -> x < 32768 -> to_int16 x = Ok (Qtrunc x).
Proof.
  intros H0 H1. unfold to_int16.
  destruct (Qtrunc_range x (-32768) 32767) as [Ha Hb]; try lia.
  - change (inject_Z (-32768)) with (-32768). lra.
  - change (inject_Z 32767) with 32767. lra.
  - apply Z.leb_le in Ha, Hb. now rewrite Ha, Hb.
Qed.

Lemma to_int16_ok (x : Q) (z : Z) :
  to_int16 x = Ok z -> z = Qtrunc x /\ (-32768 <= z <= 32767)%Z.
Proof.
  unfold to_int16.
  destruct (-32768 <=? Qtrunc x)%Z eqn:E1; [|discriminate].
  destruct (Qtrunc x <=? 32767)%Z eqn:E2; [|discriminate].
  simpl. intros [= <-]. apply Z.leb_le in E1, E2. auto.
Qed.

End Truncation.

(** ** Autonomous commands: [twist_cmd_callback] *)

Section AutoCommand.

Local Open Scope Q_scope.

Variable computeTargetSteeringAngleDegree : Q -> Q -> Q -> Q.

Local Abbreviation callback :=
  (twist_cmd_callback computeTargetSteeringAngleDegree).

(** The two values handed to the integer conversions (lines 78-79). *)
Lemma twist_cmd_callback_unfold (msg : TwistStamped) (g : Globals) :
  callback msg g =
    bind (to_uint16 (linear_x msg * 3.6 * 10.0))
      (fun v =>
         bind (to_int16
                 ((computeTargetSteeringAngleDegree (angular_z msg)
                     (linear_x msg) (g_wheel_base g) + 8.0) * 10.0 * -1.0))
           (fun s =>
              Ok (set_g_steering_angle_deg_i16 s
                    (set_g_target_velocity_ui16 v g)))).
Proof. reflexivity. Qed.

Lemma twist_cmd_callback_ok (msg : TwistStamped) (g g' : Globals) :
  callback msg g = Ok g' ->
  to_uint16 (linear_x msg * 3.6 * 10.0) = Ok (g_target_velocity_ui16 g')
  /\ to_int16
       ((computeTargetSteeringAngleDegree (angular_z msg) (linear_x msg)
           (g_wheel_base g) + 8.0) * 10.0 * -1.0)
     = Ok (g_steering_angle_deg_i16 g').
Proof.
  rewrite twist_cmd_callback_unfold.
  destruct (to_uint16 _) as [v| |]; simpl; try discriminate.
  destruct (to_int16 _) as [s| |]; simpl; try discriminate.
  intros [= <-]. auto.
Qed.



End AutoCommand.

(** ** Manual input: [current_joy_callback] *)

Section ManualInput.

Lemma index_ok {A : Type} (v : list A) (i : nat) (d a : A) :
  index v i = Ok a -> nth i v d = a.
Proof.
  unfold index. destruct (nth_error v i) eqn:E; [|discriminate].
  intros [= <-]. now apply nth_error_nth.
Qed.

Lemma index_in_range {A : Type} (v : list A) (i : nat) (d : A) :
  (i < List.length v)%nat -> index v i = Ok (nth i v d).
Proof.
  intros H. unfold index.
  destruct (nth_error v i) eqn:E.
  - now rewrite (nth_error_nth _ _ d E).
  - apply nth_error_None in E. lia.
Qed.

(** Steps through the next [index] of a computation that returned, and
    replaces the element read by its accessor. *)
Ltac read_button H :=
  match type of H with
  | context [index (buttons ?m) ?i] =>
      let E := fresh "E" in
      destruct (index (buttons m) i) eqn:E; cbn [bind] in H;
      [apply (index_ok _ _ 0) in E; fold (button m i) in E; subst
      |discriminate H|discriminate H]
  end.

Ltac read_axis H :=
  match type of H with
  | context [index (axes ?m) ?i] =>
      let E := fresh "E" in
      destruct (index (axes m) i) eqn:E; cbn [bind] in H;
      [apply (index_ok _ _ (0 # 1)) in E; fold (axis m i) in E; subst
      |discriminate H|discriminate H]
  end.

Lemma cancel_requested_ok (msg : Joy) (c : bool) :
  cancel_requested msg = Ok c -> c = joy_cancel msg.
Proof.
  unfold cancel_requested, joy_cancel. intros H.
  read_button H.
  destruct (button msg 0 =? 1); [now inversion H|].
  read_axis H.
  destruct (negb (Qeq_bool (axis msg 1) 0)); [now inversion H|].
  read_axis H. now inversion H.
Qed.

Lemma manual_target_velocity_ok (msg : Joy) (v : Q) :
  manual_target_velocity msg = Ok v -> v = joy_velocity msg.
Proof.
  unfold manual_target_velocity, joy_velocity. intros H.
  read_button H.
  destruct (button msg 1 =? 1); [|now inversion H].
  read_axis H. now inversion H.
Qed.

Lemma manual_target_steering_ok (msg : Joy) (a : Q) :
  manual_target_steering msg = Ok a -> a = joy_steering msg.
Proof.
  unfold manual_target_steering, joy_steering. intros H.
  read_axis H. read_axis H. now inversion H.
Qed.

Lemma brake_level_ok (msg : Joy) (b : Z) :
  brake_level msg = Ok b -> b = joy_brake msg.
Proof.
  unfold brake_level, joy_brake. intros H.
  read_button H.
  destruct (button msg 0 =? 1); [now inversion H|].
  read_button H.
  destruct (button msg 2 =? 1); [now inversion H|].
  read_button H.
  destruct (button msg 3 =? 1); now inversion H.
Qed.

(** What the handler has done when it returns. *)
Lemma current_joy_callback_ok (msg : Joy) (g g' : Globals) :
  current_joy_callback msg g = Ok g' ->
  g_automode g' =
    (if button msg 12 =? 1 then true
     else if joy_cancel msg then false else g_automode g)
  /\ g_brake g' = joy_brake msg
  /\ g_shift g' =
       (if button msg 12 =? 1 then 0 else to_uchar (button msg 5))
  /\ to_uint16 (joy_velocity msg * 10.0)
     = Ok (g_manual_target_velocity_ui16 g')
  /\ to_int16 (joy_steering msg * 10.0 * -1.0)
     = Ok (g_manual_steering_angle_deg_i16 g').
Proof.
  unfold current_joy_callback. intros H.
  destruct (cancel_requested msg) as [c| |] eqn:Ec; cbn [bind] in H;
    try discriminate H.
  apply cancel_requested_ok in Ec.
  destruct (manual_target_velocity msg) as [v| |] eqn:Ev; cbn [bind] in H;
    try discriminate H.
  apply manual_target_velocity_ok in Ev.
  destruct (manual_target_steering msg) as [a| |] eqn:Ea; cbn [bind] in H;
    try discriminate H.
  apply manual_target_steering_ok in Ea.
  destruct (brake_level msg) as [b| |] eqn:Eb; cbn [bind] in H;
    try discriminate H.
  apply brake_level_ok in Eb.
  read_button H.
  destruct (to_uint16 _) as [vi| |] eqn:Evi; cbn [bind] in H;
    try discriminate H.
  destruct (to_int16 _) as [si| |] eqn:Esi; cbn [bind] in H;
    try discriminate H.
  read_button H.
  destruct (button msg 12 =? 1); inversion H; subst g'; clear H;
    destruct (joy_cancel msg); cbn; auto.
Qed.

(** The handler returns on every message that has the elements it reads
    and whose scaled values fit their fields. *)
Lemma current_joy_callback_defined (msg : Joy) (g : Globals) :
  (12 < List.length (buttons msg))%nat ->
  (4 < List.length (axes msg))%nat ->
  is_ok (to_uint16 (joy_velocity msg * 10.0)) = true ->
  is_ok (to_int16 (joy_steering msg * 10.0 * -1.0)) = true ->
  is_ok (current_joy_callback msg g) = true.
Proof.
  intros Hb Ha Hv Hs.
  unfold current_joy_callback, cancel_requested, manual_target_velocity,
    manual_target_steering, brake_level.
  rewrite !(index_in_range (buttons msg) _ 0) by lia.
  rewrite !(index_in_range (axes msg) _ (0 # 1)) by lia.
  fold (button msg 0) (button msg 1) (button msg 2) (button msg 3)
    (button msg 5) (button msg 12)
    (axis msg 0) (axis msg 1) (axis msg 2) (axis msg 3) (axis msg 4).
  unfold joy_velocity, joy_steering in Hv, Hs.
  cbn [bind].
  destruct (button msg 0 =? 1); cbn [bind];
    [|destruct (negb (Qeq_bool (axis msg 1) 0)); cbn [bind]];
    (destruct (button msg 1 =? 1); cbn [bind];
     try (destruct (button msg 2 =? 1); cbn [bind];
          [|destruct (button msg 3 =? 1); cbn [bind]]);
     destruct (to_uint16 _); try discriminate Hv; cbn [bind];
     destruct (to_int16 _); try discriminate Hs; cbn [bind];
     destruct (button msg 12 =? 1); reflexivity).
Qed.

End ManualInput.

(** ** Properties of the two input handlers *)

Section Handlers.

Local Open Scope Q_scope.



(** C6, as the spec states it, fails: a non-zero steering axis alone leaves
    AutomodeFlag set. *)
Lemma steering_axis_alone_keeps_automode :
  ~ axis steering_only_event 0 == 0
  /\ g_automode auto_globals = true
  /\ exists g',
       current_joy_callback steering_only_event auto_globals = Ok g'
       /\ g_automode g' = true.
Proof.
  split; [vm_compute; discriminate|]. split; [reflexivity|].
  eexists. split; vm_compute; reflexivity.
Qed.

(** C6, as amended: for every manual controller event in which button 0 is
    pressed or axis 1 or axis 2 is non-zero, and the resume button (12) is
    not pressed, the handler leaves AutomodeFlag cleared; the flag after
    the handler depends on buttons 0 and 12, axes 1 and 2 and its old value
    only, so the steering axis (0) and the throttle trigger (4) have no
    part in it. *)
Theorem joy_cancel_clears_automode (msg : Joy) (g g' : Globals) :
  current_joy_callback msg g = Ok g' ->
  (button msg 0 = 1%Z \/ ~ axis msg 1 == 0 \/ ~ axis msg 2 == 0 ->
   button msg 12 <> 1%Z -> g_automode g' = false)
  /\ g_automode g' =
       (if (button msg 12 =? 1)%Z then true
        else if (button msg 0 =? 1)%Z
                || negb (Qeq_bool (axis msg 1) 0)
                || negb (Qeq_bool (axis msg 2) 0)
             then false else g_automode g).
Proof.
  intros H. apply current_joy_callback_ok in H.
  destruct H as (Ha & _). split; [|exact Ha].
  intros Hc H12. rewrite Ha.
  apply Z.eqb_neq in H12. rewrite H12.
  assert (Hj : joy_cancel msg = true).
  { unfold joy_cancel. destruct Hc as [H0|[H1|H2]].
    - apply Z.eqb_eq in H0. now rewrite H0.
    - destruct (Qeq_bool (axis msg 1) 0) eqn:E.
      + apply Qeq_bool_iff in E. contradiction.
      + now rewrite orb_true_r.
    - destruct (Qeq_bool (axis msg 2) 0) eqn:E.
      + apply Qeq_bool_iff in E. contradiction.
      + now rewrite orb_true_r. }
  now rewrite Hj.
Qed.

Lemma joy_cancel_clears_automode_witness :
  exists g',
    current_joy_callback emergency_event auto_globals = Ok g'
    /\ g_automode g' = false.
Proof.
  eexists. split; [vm_compute; reflexivity|].
  refine (proj1 (joy_cancel_clears_automode emergency_event auto_globals
                   _ _) _ _).
  - vm_compute. reflexivity.
  - left. reflexivity.
  - vm_compute. discriminate.
Defined.

(** C9, as the spec states it, fails: with the emergency button and the
    resume button pressed in one event, AutomodeFlag ends set. *)
Lemma emergency_with_resume_sets_automode :
  button emergency_and_resume_event 0 = 1%Z
  /\ exists g',
       current_joy_callback emergency_and_resume_event startup_globals
         = Ok g'
       /\ g_automode g' = true.
Proof.
  split; [reflexivity|]. eexists. split; vm_compute; reflexivity.
Qed.

(** C9, as amended: for every manual controller event with button 0
    pressed, the handler sets the brake level to 1 whatever the other brake
    buttons are, and leaves AutomodeFlag cleared unless the resume button
    (12) is pressed in the same event, in which case the flag ends set. *)
Theorem emergency_button_brakes (msg : Joy) (g g' : Globals) :
  current_joy_callback msg g = Ok g' ->
  button msg 0 = 1%Z ->
  g_brake g' = 1%Z /\ g_automode g' = (button msg 12 =? 1)%Z.
Proof.
  intros H H0. apply current_joy_callback_ok in H.
  destruct H as (Ha & Hb & _).
  apply Z.eqb_eq in H0.
  unfold joy_brake in Hb. unfold joy_cancel in Ha.
  rewrite H0 in Ha, Hb. split; [exact Hb|].
  rewrite Ha. now destruct (button msg 12 =? 1)%Z.
Qed.

Lemma emergency_button_brakes_witness :
  exists g',
    current_joy_callback emergency_event auto_globals = Ok g'
    /\ g_brake g' = 1%Z /\ g_automode g' = false.
Proof.
  eexists. split; [vm_compute; reflexivity|].
  refine (emergency_button_brakes emergency_event auto_globals _ _ _).
  - vm_compute. reflexivity.
  - reflexivity.
Defined.

End Handlers.

Section ManualRanges.

Local Open Scope Q_scope.


Lemma steering_angle_ratio_deg_eq (a3 : Q) :
  steering_angle_ratio_deg a3 == 20.0 + 17.0 * ((- a3 + 1.0) / 2.0).
Proof. unfold steering_angle_ratio_deg, l2_of. field. Qed.

Lemma steering_angle_ratio_deg_affine (a3 : Q) :
  steering_angle_ratio_deg a3 == (57 # 2) - (17 # 2) * a3.
Proof. unfold steering_angle_ratio_deg, l2_of. field. Qed.

Lemma l2_of_affine (a3 : Q) : l2_of a3 == (1 # 2) - (1 # 2) * a3.
Proof. unfold l2_of. field. Qed.

(** C7: for every manual controller event the steering angle before
    scaling is ratio * axes[0] + 8.0 with
    ratio = 20.0 + 17.0 * ((-axes[3] + 1.0) / 2.0), and it is this angle,
    times 10 and negated, that is converted into the stored field; for
    axes[3] in [-1, 1] the pull depth l2 lies in [0, 1] and the ratio in
    [20, 37]; the ratio increases strictly with the pull depth. *)
Theorem manual_steering_ratio (msg : Joy) :
  let ratio := steering_angle_ratio_deg (axis msg 3) in
  ratio == 20.0 + 17.0 * ((- axis msg 3 + 1.0) / 2.0)
  /\ (forall a, manual_target_steering msg = Ok a ->
                a == ratio * axis msg 0 + 8.0)
  /\ (forall g g', current_joy_callback msg g = Ok g' ->
                   g_manual_steering_angle_deg_i16 g'
                   = Qtrunc ((ratio * axis msg 0 + 8.0) * 10.0 * -1.0))
  /\ (-1 <= axis msg 3 -> axis msg 3 <= 1 ->
      0 <= l2_of (axis msg 3) /\ l2_of (axis msg 3) <= 1
      /\ 20 <= ratio /\ ratio <= 37)
  /\ (forall msg', l2_of (axis msg 3) < l2_of (axis msg' 3) ->
                   ratio < steering_angle_ratio_deg (axis msg' 3)).
Proof.
  intros ratio. split; [apply steering_angle_ratio_deg_eq|].
  split; [|split; [|split]].
  - intros a H. apply manual_target_steering_ok in H. subst a.
    unfold joy_steering, manual_target_steering_angle_deg. reflexivity.
  - intros g g' H. apply current_joy_callback_ok in H.
    destruct H as (_ & _ & _ & _ & Hs).
    apply to_int16_ok in Hs. destruct Hs as [Hs _]. rewrite Hs.
    reflexivity.
  - intros Hl Hu. unfold ratio.
    rewrite steering_angle_ratio_deg_affine, l2_of_affine.
    repeat split; lra.
  - intros msg'. unfold ratio.
    rewrite !steering_angle_ratio_deg_affine, !l2_of_affine. lra.
Qed.

Lemma manual_steering_ratio_witness :
  steering_angle_ratio_deg (axis driving_event 3) == 37
  /\ steering_angle_ratio_deg (axis steering_only_event 3) == 20
  /\ 20 <= steering_angle_ratio_deg (axis steering_only_event 3)
  /\ steering_angle_ratio_deg (axis driving_event 3) <= 37
  /\ steering_angle_ratio_deg (axis steering_only_event 3)
     < steering_angle_ratio_deg (axis driving_event 3)
  /\ exists g',
       current_joy_callback driving_event startup_globals = Ok g'
       /\ g_manual_steering_angle_deg_i16 g' = (-172)%Z.
Proof.
  destruct (manual_steering_ratio steering_only_event)
    as (_ & _ & _ & Hrange & Hmono).
  destruct (manual_steering_ratio driving_event)
    as (_ & Hangle & Hstored & Hrange' & _).
  destruct Hrange' as (_ & _ & _ & Hmax);
    [vm_compute; discriminate|vm_compute; discriminate|].
  destruct Hrange as (_ & _ & Hmin & _);
    [vm_compute; discriminate|vm_compute; discriminate|].
  split; [vm_compute; reflexivity|].
  split; [vm_compute; reflexivity|].
  split; [exact Hmin|]. split; [exact Hmax|].
  split.
  - apply Hmono. vm_compute. reflexivity.
  - eexists. split; [vm_compute; reflexivity|].
    etransitivity.
    + apply (Hstored startup_globals). vm_compute. reflexivity.
    + vm_compute. reflexivity.
Defined.





End ManualRanges.

(** ** The control loop *)

Section Frames.

Variable computeTargetSteeringAngleDegree : Q -> Q -> Q -> Q.
Variable translateCanData : Z -> list string -> Z -> Q * Z.
Variable RET_NO_PUBLISH : Q.
Variable msb_first : bool.

Local Abbreviation spin := (spinOnce computeTargetSteeringAngleDegree).
Local Abbreviation body :=
  (loop_body computeTargetSteeringAngleDegree msb_first).
Local Abbreviation exec_step :=
  (exec computeTargetSteeringAngleDegree translateCanData RET_NO_PUBLISH
     msb_first).
Local Abbreviation run_steps :=
  (run computeTargetSteeringAngleDegree translateCanData RET_NO_PUBLISH
     msb_first).
Local Abbreviation run_main :=
  (main computeTargetSteeringAngleDegree translateCanData RET_NO_PUBLISH
     msb_first).

Lemma setCanData_brake_byte (mode shift velocity steering brake hb : Z) :
  brake_byte (ymc.setCanData msb_first mode shift velocity steering brake hb)
  = brake.
Proof. unfold ymc.setCanData, ymc.bytes16. now destruct msb_first. Qed.

Lemma setCanData_heartbeat_byte
    (mode shift velocity steering brake hb : Z) :
  heartbeat_byte
    (ymc.setCanData msb_first mode shift velocity steering brake hb)
  = hb.
Proof. unfold ymc.setCanData, ymc.bytes16. now destruct msb_first. Qed.

Lemma frames_app (a b : list action) :
  frames (a ++ b) = (frames a ++ frames b)%list.
Proof.
  induction a as [|x a IH]; [reflexivity|].
  destruct x; simpl; now rewrite ?IH.
Qed.

(** Inverts a chain of binds that returned. *)
Ltac bind_inv H :=
  cbv zeta in H;
  repeat match type of H with
    | bind ?m _ = Ok _ =>
        destruct m eqn:?; cbn [bind] in H; try discriminate H
    end.

(** The autonomous handler writes the two autonomous fields only. *)
Lemma twist_cmd_callback_frame (msg : TwistStamped) (g g' : Globals) :
  twist_cmd_callback computeTargetSteeringAngleDegree msg g = Ok g' ->
  g_mode g' = g_mode g /\ g_automode g' = g_automode g
  /\ g_shift g' = g_shift g /\ g_brake g' = g_brake g
  /\ g_manual_target_velocity_ui16 g' = g_manual_target_velocity_ui16 g
  /\ g_manual_steering_angle_deg_i16 g' = g_manual_steering_angle_deg_i16 g.
Proof.
  unfold twist_cmd_callback. intros H. bind_inv H.
  inversion H. subst g'. cbn. auto 10.
Qed.

(** The manual handler leaves the two autonomous fields and the mode as
    they are. *)
Lemma current_joy_callback_frame (msg : Joy) (g g' : Globals) :
  current_joy_callback msg g = Ok g' ->
  g_mode g' = g_mode g
  /\ g_target_velocity_ui16 g' = g_target_velocity_ui16 g
  /\ g_steering_angle_deg_i16 g' = g_steering_angle_deg_i16 g.
Proof.
  unfold current_joy_callback. intros H. bind_inv H.
  match type of H with
  | (if ?c then _ else _) = _ => destruct c
  end; inversion H; subst g'; clear H;
    match goal with
    | |- context [if ?c then _ else _] => destruct c
    end; cbn; auto.
Qed.

Lemma current_vel_callback_frame (msg : TwistStamped) (g g' : Globals) :
  current_vel_callback msg g = Ok g' ->
  g_mode g' = g_mode g /\ g_automode g' = g_automode g
  /\ g_shift g' = g_shift g /\ g_brake g' = g_brake g.
Proof. intros [= <-]. cbn. auto. Qed.


(** *** The static local [brake] *)

Lemma loop_body_latches (callbacks : list message) (m m' : Main)
    (out : list action) :
  body callbacks m = (out, Ok m') ->
  exists b, brake m' = Some b
            /\ (brake m = Some b \/ (brake m = None /\ g_brake (globals m) = b))
            /\ forall data, In data (frames out) -> brake_byte data = b.
Proof.
  unfold loop_body, select. intros H.
  destruct (spinOnce _ callbacks (globals m)) as [g'| |];
    cbn [bind] in H; inversion H; subst; clear H.
  cbn [brake frames].
  eexists. split; [reflexivity|]. split.
  - destruct (brake m); auto.
  - intros data [<-|[]]. apply setCanData_brake_byte.
Qed.

Lemma loop_body_frames (callbacks : list message) (m : Main) :
  frames (fst (body callbacks m))
  = [ymc.setCanData msb_first (to_uchar (g_mode (globals m)))
       (g_shift (globals m))
       (if g_automode (globals m)
        then g_target_velocity_ui16 (globals m)
        else g_manual_target_velocity_ui16 (globals m))
       (if g_automode (globals m)
        then g_steering_angle_deg_i16 (globals m)
        else g_manual_steering_angle_deg_i16 (globals m))
       (match brake m with Some b => b | None => g_brake (globals m) end)
       (heart_beat m)].
Proof. reflexivity. Qed.

Lemma exec_latched (b : Z) (s : step) (m m' : Main) (out : list action) :
  brake_latched b m ->
  exec_step s m = (out, Ok m') ->
  brake_latched b m'.
Proof.
  intros Hl H. destruct s as [callbacks|c|]; cbn [exec] in H.
  - apply loop_body_latches in H. destruct H as (b' & Hb' & Hfrom & _).
    left. rewrite Hb'. f_equal.
    destruct Hl as [Hl|[Hn Hg]], Hfrom as [Hf|[Hf Hg']]; congruence.
  - inversion H; subst; clear H. unfold brake_latched in *. cbn.
    unfold changeMode_key.
    destruct (Ascii.eqb c " "), (Ascii.eqb c "s"); cbn; exact Hl.
  - unfold readCanData_pass in H.
    destruct (candump m) as [unread|]; [|discriminate H].
    destruct (fgets 64 unread) as [[buf rest]|];
      [|inversion H; subst; exact Hl].
    destruct (g_terminate_thread (globals m));
      [inversion H; subst; exact Hl|].
    unfold readCanData_line in H.
    destruct (0 <? String.length buf)%nat;
      [|inversion H; subst; exact Hl].
    destruct (erase_front _ 3) as [data| |]; cbn [bind] in H;
      try discriminate H.
    destruct (at_ _ 1) as [tok| |]; cbn [bind] in H; try discriminate H.
    destruct (stoi tok) as [id| |]; cbn [bind] in H; try discriminate H.
    destruct (translateCanData id data (g_mode (globals m))) as [v md].
    destruct (negb (Qeq_bool v RET_NO_PUBLISH));
      inversion H; subst; exact Hl.
Qed.

Lemma exec_frames_brake (b : Z) (s : step) (m : Main) :
  brake_latched b m ->
  forall data, In data (frames (fst (exec_step s m))) -> brake_byte data = b.
Proof.
  intros Hl data Hin. destruct s as [callbacks|c|]; cbn [exec] in Hin.
  - rewrite loop_body_frames in Hin. destruct Hin as [<-|[]].
    rewrite setCanData_brake_byte.
    destruct Hl as [->|[-> Hg]]; trivial.
  - destruct Hin.
  - unfold readCanData_pass in Hin.
    destruct (candump m) as [unread|]; [|destruct Hin].
    destruct (fgets 64 unread) as [[buf rest]|]; [|destruct Hin].
    destruct (g_terminate_thread (globals m)); [destruct Hin|].
    destruct (readCanData_line _ _ _ _) as [[g' [v|]]| |];
      destruct Hin.
Qed.

Lemma run_frames_brake (b : Z) (schedule : list step) :
  forall m, brake_latched b m ->
  forall data, In data (frames (fst (run_steps schedule m))) ->
               brake_byte data = b.
Proof.
  induction schedule as [|s rest IH]; intros m Hl data Hin;
    [destruct Hin|].
  cbn [run] in Hin.
  pose proof (exec_frames_brake b s m Hl) as Hs.
  pose proof (exec_latched b s m) as Hnext.
  destruct (exec_step s m) as [out [m'| |]]; cbn [fst] in *;
    try (now apply Hs).
  specialize (IH m' (Hnext m' out Hl eq_refl)).
  destruct (run_steps rest m') as [out' r]. cbn [fst] in *.
  rewrite frames_app in Hin. apply in_app_or in Hin.
  destruct Hin as [Hin|Hin]; [now apply Hs|now apply IH].
Qed.

(** Every frame [main] ever sends carries brake byte 0, whatever the
    manual handler has put into [g_brake] in the meantime. *)
Lemma main_brake_byte_zero (p : Params) (popen_result : option string)
    (schedule : list step) (data : list Z) :
  In data (frames (fst (run_main p popen_result schedule))) ->
  brake_byte data = 0.
Proof.
  unfold main. intros Hin.
  pose proof (run_frames_brake 0 schedule
                (mkMain (initial_globals p) None 0 popen_result)) as H.
  destruct (run_steps schedule _) as [out [m| |]]; cbn [fst] in *;
    rewrite ?frames_app in Hin; cbn [frames app] in Hin;
    rewrite ?app_nil_r in Hin; apply H; trivial; right; split; reflexivity.
Qed.

(** *** The heartbeat *)

Lemma counting_from_S (h : Z) (n : nat) :
  counting_from h (S n) = h mod 256 :: counting_from (h + 1) n.
Proof.
  unfold counting_from. cbn [seq map]. f_equal.
  - f_equal. lia.
  - rewrite <- seq_shift, map_map. apply map_ext.
    intros k. f_equal. lia.
Qed.

Lemma exec_heartbeat (s : step) (m : Main) :
  match s with
  | loop_iteration _ =>
      heartbeats (fst (exec_step s m)) = [heart_beat m]
      /\ forall m', snd (exec_step s m) = Ok m' ->
                    heart_beat m' = to_uchar (heart_beat m + 1)
  | _ =>
      heartbeats (fst (exec_step s m)) = []
      /\ forall m', snd (exec_step s m) = Ok m' ->
                    heart_beat m' = heart_beat m
  end.
Proof.
  destruct s as [callbacks|c|]; cbn [exec].
  - split.
    + unfold heartbeats. rewrite loop_body_frames. cbn [map].
      now rewrite setCanData_heartbeat_byte.
    + unfold loop_body, select. cbn [snd]. intros m' H.
      destruct (spinOnce _ callbacks (globals m)); cbn [bind] in H;
        inversion H. reflexivity.
  - split; [reflexivity|]. cbn [snd]. intros m' [= <-]. reflexivity.
  - unfold readCanData_pass.
    destruct (candump m) as [unread|]; [|split; [reflexivity|discriminate]].
    destruct (fgets 64 unread) as [[buf rest]|];
      [|split; [reflexivity|now intros m' [= <-]]].
    destruct (g_terminate_thread (globals m));
      [split; [reflexivity|now intros m' [= <-]]|].
    destruct (readCanData_line _ _ _ _) as [[g' [v|]]| |];
      (split; [reflexivity|]); cbn [snd]; intros m' H; inversion H;
      reflexivity.
Qed.

Lemma run_heartbeats (schedule : list step) :
  forall (m : Main) (h : Z),
    heart_beat m = h mod 256 ->
    heartbeats (fst (run_steps schedule m))
    = counting_from h (List.length (frames (fst (run_steps schedule m)))).
Proof.
  induction schedule as [|s rest IH]; intros m h Hh; [reflexivity|].
  cbn [run].
  pose proof (exec_heartbeat s m) as Hs.
  assert (Hlen : forall out, List.length (frames out)
                             = List.length (heartbeats out)).
  { intros out. unfold heartbeats. now rewrite length_map. }
  destruct (exec_step s m) as [out r] eqn:E. cbn [fst snd] in Hs.
  destruct s as [callbacks|c|]; destruct Hs as [Hout Hnext].
  - destruct r as [m'| |]; cbn [fst];
      try (rewrite Hlen, Hout; cbn [List.length];
           rewrite counting_from_S; cbn; congruence).
    specialize (IH m' (h + 1) ltac:(rewrite (Hnext m' eq_refl), Hh;
                                    unfold to_uchar;
                                    now rewrite Zplus_mod_idemp_l)).
    destruct (run_steps rest m') as [out' r']. cbn [fst] in *.
    unfold heartbeats in *. rewrite frames_app, map_app, length_app.
    rewrite Hout, IH. rewrite <- (length_map heartbeat_byte (frames out)).
    rewrite Hout. cbn [List.length Nat.add app].
    rewrite counting_from_S. congruence.
  - destruct r as [m'| |]; cbn [fst];
      try (rewrite Hlen, Hout; reflexivity).
    specialize (IH m' h ltac:(rewrite (Hnext m' eq_refl); exact Hh)).
    destruct (run_steps rest m') as [out' r']. cbn [fst] in *.
    unfold heartbeats in *. rewrite frames_app, map_app, length_app.
    rewrite Hout, IH. rewrite <- (length_map heartbeat_byte (frames out)).
    rewrite Hout. reflexivity.
  - destruct r as [m'| |]; cbn [fst];
      try (rewrite Hlen, Hout; reflexivity).
    specialize (IH m' h ltac:(rewrite (Hnext m' eq_refl); exact Hh)).
    destruct (run_steps rest m') as [out' r']. cbn [fst] in *.
    unfold heartbeats in *. rewrite frames_app, map_app, length_app.
    rewrite Hout, IH. rewrite <- (length_map heartbeat_byte (frames out)).
    rewrite Hout. reflexivity.
Qed.

(** A run that comes to its end has sent one frame per pass of the loop. *)
Lemma run_frame_count (schedule : list step) :
  forall (m m' : Main) (out : list action),
    run_steps schedule m = (out, Ok m') ->
    List.length (frames out) = ticks schedule.
Proof.
  induction schedule as [|s rest IH]; intros m m' out H.
  - inversion H. reflexivity.
  - cbn [run] in H.
    pose proof (exec_heartbeat s m) as Hs.
    destruct (exec_step s m) as [o [m1| |]]; try discriminate H.
    specialize (IH m1).
    destruct (run_steps rest m1) as [o' r']. inversion H; subst; clear H.
    rewrite frames_app, length_app, (IH m' o' eq_refl).
    cbn [fst] in Hs. unfold ticks. cbn [filter].
    rewrite <- (length_map heartbeat_byte (frames o)). fold (heartbeats o).
    destruct s; destruct Hs as [-> _]; reflexivity.
Qed.

Lemma main_frames (p : Params) (popen_result : option string)
    (schedule : list step) :
  frames (fst (run_main p popen_result schedule))
  = frames (fst (run_steps schedule
                   (mkMain (initial_globals p) None 0 popen_result))).
Proof.
  unfold main.
  destruct (run_steps schedule _) as [out [m| |]]; cbn [fst];
    rewrite ?frames_app; cbn [frames app]; now rewrite ?app_nil_r.
Qed.

(** C8: the heartbeat bytes of the frames [main] transmits are
    0, 1, 2, ... taken modulo 256, one step per pass of the loop, whatever
    messages, keystrokes and telemetry lines arrive in between: no skip,
    no repeat, and 255 is followed by 0.  A run that reaches its end has
    transmitted exactly one frame per pass. *)
Theorem heartbeat_increments (p : Params) (popen_result : option string)
    (schedule : list step) :
  let out := fst (run_main p popen_result schedule) in
  heartbeats out = counting_from 0 (List.length (frames out))
  /\ (forall k hb next,
        nth_error (heartbeats out) k = Some hb ->
        nth_error (heartbeats out) (S k) = Some next ->
        hb = Z.of_nat k mod 256 /\ next = (hb + 1) mod 256)
  /\ (is_ok (snd (run_main p popen_result schedule)) = true ->
      List.length (frames out) = ticks schedule).
Proof.
  intros out.
  assert (Hhb : heartbeats out
                = counting_from 0 (List.length (frames out))).
  { unfold out, heartbeats. rewrite main_frames.
    now apply run_heartbeats. }
  split; [exact Hhb|]. split.
  - rewrite Hhb. unfold counting_from. intros k hb next Hk Hn.
    rewrite nth_error_map in Hk, Hn.
    destruct (nth_error (seq 0 _) k) as [i|] eqn:Ek; [|discriminate Hk].
    destruct (nth_error (seq 0 _) (S k)) as [j|] eqn:Ej;
      [|discriminate Hn].
    assert (Hlk : (k < List.length (frames out))%nat).
    { assert (H : nth_error (seq 0 (List.length (frames out))) k
                  <> None) by (rewrite Ek; discriminate).
      apply nth_error_Some in H. now rewrite length_seq in H. }
    assert (Hlj : (S k < List.length (frames out))%nat).
    { assert (H : nth_error (seq 0 (List.length (frames out))) (S k)
                  <> None) by (rewrite Ej; discriminate).
      apply nth_error_Some in H. now rewrite length_seq in H. }
    rewrite nth_error_seq in Ek, Ej.
    apply Nat.ltb_lt in Hlk, Hlj. rewrite Hlk in Ek. rewrite Hlj in Ej.
    inversion Ek; inversion Ej; subst; clear Ek Ej.
    inversion Hk; inversion Hn; subst; clear Hk Hn.
    cbn [Z.add Nat.add]. split; [reflexivity|].
    rewrite Zplus_mod_idemp_l. f_equal. lia.
  - unfold out, main. intros Hok.
    pose proof (run_frame_count schedule
                  (mkMain (initial_globals p) None 0 popen_result)) as Hc.
    destruct (run_steps schedule _) as [o [m| |]]; try discriminate Hok.
    cbn [fst]. rewrite !frames_app. cbn [frames app].
    rewrite app_nil_r. now apply (Hc m o).
Qed.


End Frames.

(** ** Telemetry lines *)

Section Telemetry.

Variable translateCanData : Z -> list string -> Z -> Q * Z.
Variable RET_NO_PUBLISH : Q.

(** A line with fewer than three tokens reaches [erase] with an iterator
    range that ends past the vector. *)
Lemma readCanData_line_short (raw_data : string) (g : Globals) :
  raw_data <> EmptyString ->
  (List.length (ymc.splitString raw_data) < 3)%nat ->
  readCanData_line translateCanData RET_NO_PUBLISH raw_data g = Undefined.
Proof.
  intros Hne Hlen. unfold readCanData_line, erase_front.
  destruct raw_data as [|c s]; [contradiction|].
  change (0 <? String.length (String c s))%nat with true. cbv iota.
  apply Nat.leb_gt in Hlen. now rewrite Hlen.
Qed.

(** With three tokens or more, what [std::stoi] throws on the identifier
    token leaves the function. *)
Lemma readCanData_line_bad_identifier (raw_data : string) (g : Globals)
    (e : exn) :
  raw_data <> EmptyString ->
  (3 <= List.length (ymc.splitString raw_data))%nat ->
  stoi (nth 1 (ymc.splitString raw_data) EmptyString) = Throw e ->
  readCanData_line translateCanData RET_NO_PUBLISH raw_data g = Throw e.
Proof.
  intros Hne Hlen Hid. unfold readCanData_line, erase_front, at_.
  destruct raw_data as [|c s]; [contradiction|].
  change (0 <? String.length (String c s))%nat with true. cbv iota.
  apply Nat.leb_le in Hlen. rewrite Hlen. cbn [bind].
  destruct (nth_error (ymc.splitString (String c s)) 1) as [tok|] eqn:E.
  - rewrite (nth_error_nth _ _ EmptyString E) in Hid.
    cbn [bind]. now rewrite Hid.
  - apply nth_error_None in E. apply Nat.leb_le in Hlen. lia.
Qed.

End Telemetry.

(** ** Concrete runs *)

(** The literal scenario of the spec: identifier token 200 and the eight
    payload tokens reach the decoder. *)
Example sample_line_tokens :
  ymc.splitString sample_line
  = ["can0"; "200"; "[8]"; "08"; "00"; "00"; "00"; "01"; "00"; "01"; "29"]%string
  /\ stoi "200" = Ok 200
  /\ erase_front (ymc.splitString sample_line) 3
     = Ok ["08"; "00"; "00"; "00"; "01"; "00"; "01"; "29"]%string.
Proof. repeat split; vm_compute; reflexivity. Qed.

(** C1 fails on the code.  The manual handler runs in the first pass and
    sets [g_brake] to 1; the frame of the second pass still carries brake
    byte 0, the value the static local took when it was initialised. *)
Theorem brake_byte_is_not_current_brake :
  exists out m,
    demo_main (Some EmptyString) brake_schedule = (out, Ok m)
    /\ g_brake (globals m) = 1
    /\ brake m = Some 0
    /\ map brake_byte (frames out) = [0; 0].
Proof. do 2 eexists. repeat split; vm_compute; reflexivity. Qed.

(** C2 fails on the code.  A line of two tokens makes [erase] undefined; a
    line whose identifier is no number makes [std::stoi] throw
    [std::invalid_argument], nothing catches it, and the run of the process
    ends there. *)
Theorem short_or_malformed_line_is_not_dropped :
  (List.length (ymc.splitString short_line) = 2)%nat
  /\ readCanData_line no_feedback (-1)%Q short_line startup_globals = Undefined
  /\ readCanData_line no_feedback (-1)%Q malformed_line startup_globals
     = Throw invalid_argument
  /\ snd (demo_main (Some malformed_line) [can_line; loop_iteration []])
     = Throw invalid_argument
  /\ frames (fst (demo_main (Some malformed_line)
                    [can_line; loop_iteration []])) = [].
Proof. repeat split; vm_compute; reflexivity. Qed.


Lemma heartbeat_increments_witness :
  exists hb next,
    nth_error (heartbeats (fst (demo_main None long_schedule))) 255 = Some hb
    /\ nth_error (heartbeats (fst (demo_main None long_schedule))) 256
       = Some next
    /\ hb = 255 /\ next = 0
    /\ List.length (frames (fst (demo_main None long_schedule))) = 300%nat.
Proof.
  destruct (heartbeat_increments no_steering no_feedback (-1)%Q true
              default_params None long_schedule) as (_ & Hstep & Hcount).
  exists 255, 0.
  split; [vm_compute; reflexivity|]. split; [vm_compute; reflexivity|].
  destruct (Hstep 255%nat 255 0) as [Hhb Hnext];
    [vm_compute; reflexivity|vm_compute; reflexivity|].
  split; [exact Hhb|]. split; [exact Hnext|].
  transitivity (ticks long_schedule);
    [apply Hcount; vm_compute; reflexivity|vm_compute; reflexivity].
Defined.



(** ** Further properties of the manual handler *)

Section ManualHandler.

Local Open Scope Q_scope.

Lemma Qtrunc_monotone (x y : Q) : x <= y -> (Qtrunc x <= Qtrunc y)%Z.
Proof.
  intros H.
  destruct (Qlt_le_dec x 0) as [Hx|Hx], (Qlt_le_dec y 0) as [Hy|Hy].
  - rewrite !Qtrunc_neg by trivial. now apply Qceiling_resp_le.
  - destruct (Qtrunc_toward_zero x) as [_ Hn].
    destruct (Qtrunc_toward_zero y) as [Hp _].
    destruct (Hn Hx) as (_ & _ & H1). destruct (Hp Hy) as (_ & _ & H2). lia.
  - lra.
  - rewrite !Qtrunc_nonneg by trivial. now apply Qfloor_resp_le.
Qed.

Lemma index_ok_lt {A : Type} (v : list A) (i : nat) (a : A) :
  index v i = Ok a -> (i < List.length v)%nat.
Proof.
  unfold index. destruct (nth_error v i) eqn:E; [|discriminate].
  intros _. apply nth_error_Some. rewrite E. discriminate.
Qed.

Lemma index_no_throw {A : Type} (v : list A) (i : nat) :
  no_throw (index v i).
Proof. unfold index. now destruct (nth_error v i). Qed.

Lemma bind_no_throw {A B : Type} (m : result A) (k : A -> result B) :
  no_throw m -> (forall a, no_throw (k a)) -> no_throw (bind m k).
Proof. destruct m; cbn; auto. Qed.

Lemma to_uint16_no_throw (x : Q) : no_throw (to_uint16 x).
Proof.
  unfold to_uint16.
  now destruct ((0 <=? Qtrunc x)%Z && (Qtrunc x <=? 65535)%Z).
Qed.

Lemma to_int16_no_throw (x : Q) : no_throw (to_int16 x).
Proof.
  unfold to_int16.
  now destruct ((-32768 <=? Qtrunc x)%Z && (Qtrunc x <=? 32767)%Z).
Qed.

Lemma current_joy_callback_no_throw (msg : Joy) (g : Globals) :
  no_throw (current_joy_callback msg g).
Proof.
  unfold current_joy_callback, cancel_requested, manual_target_velocity,
    manual_target_steering, brake_level.
  repeat first
    [ apply bind_no_throw; [|intros ?]
    | apply index_no_throw | apply to_uint16_no_throw
    | apply to_int16_no_throw
    | match goal with
      | |- no_throw (if ?c then _ else _) => destruct c
      | |- no_throw (Ok _) => exact I
      end ].
Qed.

(** The elements a returning handler has read. *)
Lemma current_joy_callback_reads (msg : Joy) (g g' : Globals) :
  current_joy_callback msg g = Ok g' ->
  (12 < List.length (buttons msg))%nat /\ (3 < List.length (axes msg))%nat
  /\ (button msg 1 = 1%Z -> (4 < List.length (axes msg))%nat).
Proof.
  unfold current_joy_callback. intros H.
  destruct (cancel_requested msg) as [c| |]; cbn [bind] in H;
    try discriminate H.
  destruct (manual_target_velocity msg) as [v| |] eqn:Ev; cbn [bind] in H;
    try discriminate H.
  destruct (manual_target_steering msg) as [a| |] eqn:Ea; cbn [bind] in H;
    try discriminate H.
  destruct (brake_level msg) as [b| |]; cbn [bind] in H;
    try discriminate H.
  destruct (index (buttons msg) 5) as [b5| |]; cbn [bind] in H;
    try discriminate H.
  destruct (to_uint16 _) as [vi| |]; cbn [bind] in H; try discriminate H.
  destruct (to_int16 _) as [si| |]; cbn [bind] in H; try discriminate H.
  destruct (index (buttons msg) 12) as [b12| |] eqn:E12; cbn [bind] in H;
    try discriminate H.
  apply index_ok_lt in E12. split; [exact E12|].
  unfold manual_target_steering in Ea.
  destruct (index (axes msg) 3) as [a3| |] eqn:E3; cbn [bind] in Ea;
    try discriminate Ea.
  apply index_ok_lt in E3. split; [exact E3|].
  intros H1. unfold manual_target_velocity in Ev.
  destruct (index (buttons msg) 1) as [b1| |] eqn:E1; cbn [bind] in Ev;
    try discriminate Ev.
  apply (index_ok _ _ 0%Z) in E1. fold (button msg 1) in E1.
  rewrite <- E1, H1 in Ev. cbn [Z.eqb Pos.eqb] in Ev.
  destruct (index (axes msg) 4) as [a4| |] eqn:E4; cbn [bind] in Ev;
    try discriminate Ev.
  now apply index_ok_lt in E4.
Qed.

(** X1: the brake level the manual handler leaves is decided by the first
    pressed button among 0, 2 and 3, in that order: 1, 2, 3, and 0 when none
    is pressed; the level of the previous message is not kept. *)
Theorem brake_priority (msg : Joy) (g g' : Globals) :
  current_joy_callback msg g = Ok g' ->
  (0 <= g_brake g' <= 3)%Z
  /\ (g_brake g' = 1%Z <-> button msg 0 = 1%Z)
  /\ (g_brake g' = 2%Z <-> button msg 0 <> 1%Z /\ button msg 2 = 1%Z)
  /\ (g_brake g' = 3%Z <->
      button msg 0 <> 1%Z /\ button msg 2 <> 1%Z /\ button msg 3 = 1%Z)
  /\ (g_brake g' = 0%Z <->
      button msg 0 <> 1%Z /\ button msg 2 <> 1%Z /\ button msg 3 <> 1%Z).
Proof.
  intros H. apply current_joy_callback_ok in H.
  destruct H as (_ & Hb & _). rewrite Hb. unfold joy_brake.
  destruct (Z.eqb_spec (button msg 0) 1), (Z.eqb_spec (button msg 2) 1),
    (Z.eqb_spec (button msg 3) 1); repeat split; intros; try lia;
    repeat match goal with H : _ /\ _ |- _ => destruct H end;
    try lia; try contradiction; auto.
Qed.

Lemma brake_priority_witness :
  exists g',
    current_joy_callback circle_and_triangle_event
      (set_g_brake 1 startup_globals) = Ok g'
    /\ g_brake g' = 2%Z.
Proof.
  eexists. split; [vm_compute; reflexivity|].
  refine (proj2 (proj1 (proj2 (proj2
            (brake_priority circle_and_triangle_event
               (set_g_brake 1 startup_globals) _ _)))) _).
  - vm_compute. reflexivity.
  - split; [vm_compute; discriminate|reflexivity].
Defined.

(** X2: a message with the resume button (12) pressed leaves AutomodeFlag
    set and the shift at 0, whatever button 5 is; without it the shift is
    button 5 reduced modulo 256. *)
Theorem resume_button_engages (msg : Joy) (g g' : Globals) :
  current_joy_callback msg g = Ok g' ->
  (button msg 12 = 1%Z -> g_automode g' = true /\ g_shift g' = 0%Z)
  /\ (button msg 12 <> 1%Z -> g_shift g' = (button msg 5 mod 256)%Z).
Proof.
  intros H. apply current_joy_callback_ok in H.
  destruct H as (Ha & _ & Hs & _). rewrite Ha, Hs. split; intros H12.
  - apply Z.eqb_eq in H12. now rewrite H12.
  - apply Z.eqb_neq in H12. now rewrite H12.
Qed.

Lemma resume_button_engages_witness :
  (exists g',
     current_joy_callback resume_event startup_globals = Ok g'
     /\ g_automode g' = true /\ g_shift g' = 0%Z)
  /\ (exists g',
        current_joy_callback circle_and_triangle_event startup_globals
          = Ok g'
        /\ g_shift g' = 1%Z).
Proof.
  split.
  - eexists. split; [vm_compute; reflexivity|].
    refine (proj1 (resume_button_engages resume_event startup_globals _ _) _).
    + vm_compute. reflexivity.
    + reflexivity.
  - eexists. split; [vm_compute; reflexivity|].
    refine (proj2 (resume_button_engages circle_and_triangle_event
                     startup_globals _ _) _).
    + vm_compute. reflexivity.
    + vm_compute. discriminate.
Defined.

Lemma joy_velocity_scaled_range (msg : Joy) :
  -1 <= axis msg 4 -> axis msg 4 <= 1 ->
  0 <= joy_velocity msg * 10.0 /\ joy_velocity msg * 10.0 <= 190.
Proof.
  intros Hl Hu. unfold joy_velocity, r2_of.
  destruct (button msg 1 =? 1)%Z.
  - setoid_replace ((16.0 * ((- axis msg 4 + 1.0) / 2.0) + 3.0) * 10.0)
      with (110 - 80 * axis msg 4) by field. lra.
  - setoid_replace (0.0 * 10.0) with 0 by ring. lra.
Qed.

Lemma joy_steering_scaled_range (msg : Joy) :
  -1 <= axis msg 0 -> axis msg 0 <= 1 ->
  -1 <= axis msg 3 -> axis msg 3 <= 1 ->
  -450 <= joy_steering msg * 10.0 * -1.0
  /\ joy_steering msg * 10.0 * -1.0 <= 290.
Proof.
  intros H0l H0u H3l H3u.
  unfold joy_steering, manual_target_steering_angle_deg.
  pose proof (steering_angle_ratio_deg_affine (axis msg 3)) as Hr.
  set (r := steering_angle_ratio_deg (axis msg 3)) in *.
  assert (Hr0 : 20 <= r) by lra. assert (Hr1 : r <= 37) by lra.
  assert (Hp : 0 <= r * (1 - axis msg 0))
    by (apply Qmult_le_0_compat; lra).
  assert (Hn : 0 <= r * (1 + axis msg 0))
    by (apply Qmult_le_0_compat; lra).
  setoid_replace ((r * axis msg 0 + 8.0) * 10.0 * -1.0)
    with (- (10 * (r * axis msg 0)) - 80) by ring.
  split; lra.
Qed.

(** X3: on a message with thirteen buttons, five axes and the axes it reads
    within [-1, 1], the manual handler returns, and the steering field it
    stores lies between -450 and 290 (45.0 degrees one way, 29.0 the
    other). *)
Theorem manual_handler_defined_in_range (msg : Joy) (g : Globals) :
  joy_in_range msg ->
  exists g',
    current_joy_callback msg g = Ok g'
    /\ (-450 <= g_manual_steering_angle_deg_i16 g' <= 290)%Z.
Proof.
  intros (Hb & Ha & [H0l H0u] & [H3l H3u] & [H4l H4u]).
  destruct (joy_velocity_scaled_range msg H4l H4u) as [Hv0 Hv1].
  destruct (joy_steering_scaled_range msg H0l H0u H3l H3u) as [Hs0 Hs1].
  pose proof (current_joy_callback_defined msg g Hb Ha) as Hdef.
  rewrite to_uint16_in_range, to_int16_in_range in Hdef by lra.
  specialize (Hdef eq_refl eq_refl).
  destruct (current_joy_callback msg g) as [g'| |] eqn:E;
    try discriminate Hdef.
  exists g'. split; [reflexivity|].
  apply current_joy_callback_ok in E. destruct E as (_ & _ & _ & _ & Hs).
  apply to_int16_ok in Hs. destruct Hs as [-> _].
  apply Qtrunc_range; [lia| |].
  - change (inject_Z (-450)) with (-450). lra.
  - change (inject_Z 290) with 290. lra.
Qed.

Lemma manual_handler_defined_in_range_witness :
  exists g',
    current_joy_callback driving_event startup_globals = Ok g'
    /\ (-450 <= g_manual_steering_angle_deg_i16 g' <= 290)%Z.
Proof.
  apply (manual_handler_defined_in_range driving_event startup_globals).
  unfold joy_in_range.
  repeat split; try (vm_compute; lia); vm_compute; discriminate.
Defined.

(** X4: a message with fewer than thirteen buttons or fewer than four axes
    makes the manual handler undefined: it indexes the vectors without a
    check and reads buttons[12], axes[3] and axes[0] on every path. *)
Theorem manual_handler_short_message (msg : Joy) (g : Globals) :
  (List.length (buttons msg) < 13)%nat \/ (List.length (axes msg) < 4)%nat ->
  current_joy_callback msg g = Undefined.
Proof.
  intros Hshort.
  pose proof (current_joy_callback_no_throw msg g) as Hnt.
  pose proof (current_joy_callback_reads msg g) as Hreads.
  destruct (current_joy_callback msg g) as [g'| |].
  - destruct (Hreads g' eq_refl) as (Hb & Ha & _). lia.
  - destruct Hnt.
  - reflexivity.
Qed.

Lemma manual_handler_short_message_witness :
  current_joy_callback two_button_event startup_globals = Undefined.
Proof.
  apply manual_handler_short_message. left. vm_compute. lia.
Defined.

(** X5: between two messages with the throttle enabled, the one whose
    trigger axis reads lower (pulled further) stores a velocity at least as
    large; between two messages with the same sensitivity trigger within
    [-1, 1], the one whose stick reads higher stores a steering field at
    most as large. *)
Theorem manual_fields_monotone (msg1 msg2 : Joy) (g1 g2 g1' g2' : Globals) :
  current_joy_callback msg1 g1 = Ok g1' ->
  current_joy_callback msg2 g2 = Ok g2' ->
  (button msg1 1 = 1%Z -> button msg2 1 = 1%Z ->
   axis msg2 4 <= axis msg1 4 ->
   (g_manual_target_velocity_ui16 g1' <= g_manual_target_velocity_ui16 g2')%Z)
  /\ (axis msg1 3 == axis msg2 3 -> -1 <= axis msg1 3 -> axis msg1 3 <= 1 ->
      axis msg1 0 <= axis msg2 0 ->
      (g_manual_steering_angle_deg_i16 g2'
       <= g_manual_steering_angle_deg_i16 g1')%Z).
Proof.
  intros H1 H2.
  apply current_joy_callback_ok in H1, H2.
  destruct H1 as (_ & _ & _ & Hv1 & Hs1). destruct H2 as (_ & _ & _ & Hv2 & Hs2).
  apply to_uint16_ok in Hv1, Hv2. apply to_int16_ok in Hs1, Hs2.
  destruct Hv1 as [-> _], Hv2 as [-> _], Hs1 as [-> _], Hs2 as [-> _].
  split.
  - intros Hb1 Hb2 Hle. apply Qtrunc_monotone.
    unfold joy_velocity, r2_of.
    apply Z.eqb_eq in Hb1, Hb2. rewrite Hb1, Hb2.
    setoid_replace ((16.0 * ((- axis msg1 4 + 1.0) / 2.0) + 3.0) * 10.0)
      with (110 - 80 * axis msg1 4) by field.
    setoid_replace ((16.0 * ((- axis msg2 4 + 1.0) / 2.0) + 3.0) * 10.0)
      with (110 - 80 * axis msg2 4) by field.
    lra.
  - intros H3 H3l H3u Hle. apply Qtrunc_monotone.
    unfold joy_steering, manual_target_steering_angle_deg.
    pose proof (steering_angle_ratio_deg_affine (axis msg1 3)) as Hr1.
    pose proof (steering_angle_ratio_deg_affine (axis msg2 3)) as Hr2.
    set (r1 := steering_angle_ratio_deg (axis msg1 3)) in *.
    set (r2 := steering_angle_ratio_deg (axis msg2 3)) in *.
    assert (E : r2 == r1) by lra.
    assert (Hp : 0 <= r1 * (axis msg2 0 - axis msg1 0))
      by (apply Qmult_le_0_compat; lra).
    setoid_replace ((r2 * axis msg2 0 + 8.0) * 10.0 * -1.0)
      with (- (10 * (r1 * axis msg2 0)) - 80) by (rewrite E; ring).
    setoid_replace ((r1 * axis msg1 0 + 8.0) * 10.0 * -1.0)
      with (- (10 * (r1 * axis msg1 0)) - 80) by ring.
    lra.
Qed.

Lemma manual_fields_monotone_witness :
  exists g1' g2',
    current_joy_callback gentle_event startup_globals = Ok g1'
    /\ current_joy_callback driving_event startup_globals = Ok g2'
    /\ (g_manual_target_velocity_ui16 g1'
        <= g_manual_target_velocity_ui16 g2')%Z
    /\ (g_manual_steering_angle_deg_i16 g1'
        <= g_manual_steering_angle_deg_i16 g2')%Z.
Proof.
  do 2 eexists.
  split; [vm_compute; reflexivity|]. split; [vm_compute; reflexivity|].
  split.
  - refine (proj1 (manual_fields_monotone gentle_event driving_event
                     startup_globals startup_globals _ _ _ _) _ _ _).
    + vm_compute. reflexivity.
    + vm_compute. reflexivity.
    + reflexivity.
    + reflexivity.
    + vm_compute. discriminate.
  - refine (proj2 (manual_fields_monotone driving_event gentle_event
                     startup_globals startup_globals _ _ _ _) _ _ _ _).
    + vm_compute. reflexivity.
    + vm_compute. reflexivity.
    + vm_compute. reflexivity.
    + vm_compute. discriminate.
    + vm_compute. discriminate.
    + vm_compute. discriminate.
Defined.

End ManualHandler.

(** ** Further properties of the autonomous handler and of the selection *)

Section Arbitration.

Local Open Scope Q_scope.

Variable computeTargetSteeringAngleDegree : Q -> Q -> Q -> Q.

Local Abbreviation twist_callback :=
  (twist_cmd_callback computeTargetSteeringAngleDegree).
Local Abbreviation spin := (spinOnce computeTargetSteeringAngleDegree).

Lemma Qtrunc_within_one (x : Q) :
  -1 < inject_Z (Qtrunc x) - x /\ inject_Z (Qtrunc x) - x < 1.
Proof.
  destruct (Qtrunc_toward_zero x) as [Hp Hn].
  destruct (Qlt_le_dec x 0) as [Hx|Hx].
  - destruct (Hn Hx) as (H1 & H2 & _). split; lra.
  - destruct (Hp Hx) as (H1 & H2 & _). split; lra.
Qed.

(** X6: whenever the autonomous handler returns, the stored velocity is
    within one unit (0.1 km/h) of ten times the commanded speed in km/h, and
    the negated stored steering field is within one unit (0.1 degree) of ten
    times the computed angle plus the 8.0 offset: the command can be read
    back from the two fields with an error below 0.1. *)
Theorem auto_fields_within_one_unit (msg : TwistStamped) (g g' : Globals) :
  twist_callback msg g = Ok g' ->
  let kmph := linear_x msg * 3.6 in
  let deg :=
    computeTargetSteeringAngleDegree (angular_z msg) (linear_x msg)
      (g_wheel_base g) in
  (- (1 # 10) < inject_Z (g_target_velocity_ui16 g') / 10 - kmph
   /\ inject_Z (g_target_velocity_ui16 g') / 10 - kmph < 1 # 10)
  /\ (- (1 # 10) < (- inject_Z (g_steering_angle_deg_i16 g') / 10 - 8) - deg
      /\ (- inject_Z (g_steering_angle_deg_i16 g') / 10 - 8) - deg < 1 # 10).
Proof.
  intros H kmph deg. apply twist_cmd_callback_ok in H. destruct H as [Hv Hs].
  apply to_uint16_ok in Hv. apply to_int16_ok in Hs.
  destruct Hv as [-> _], Hs as [-> _]. fold deg.
  assert (Ev : linear_x msg * 3.6 * 10.0 == 10 * kmph)
    by (unfold kmph; ring).
  assert (Es : (deg + 8.0) * 10.0 * -1.0 == - (10 * (deg + 8))) by ring.
  rewrite (Qtrunc_comp _ _ Ev), (Qtrunc_comp _ _ Es), Qtrunc_opp.
  rewrite inject_Z_opp.
  pose proof (Qtrunc_within_one (10 * kmph)) as [Hv0 Hv1].
  pose proof (Qtrunc_within_one (10 * (deg + 8))) as [Hs0 Hs1].
  set (v := inject_Z (Qtrunc (10 * kmph))) in *.
  set (s := inject_Z (Qtrunc (10 * (deg + 8)))) in *.
  setoid_replace (v / 10) with ((1 # 10) * v) by field.
  setoid_replace (- - s / 10) with ((1 # 10) * s) by field.
  repeat split; lra.
Qed.

(** X7: an autonomous command replaces the previous one altogether: the
    state after two commands in a row is the state after the second alone. *)
Theorem auto_command_last_write_wins (first second : TwistStamped)
    (g g1 : Globals) :
  twist_callback first g = Ok g1 ->
  twist_callback second g1 = twist_callback second g.
Proof.
  unfold twist_cmd_callback. intros H.
  destruct (to_uint16 (linear_x first * 3.6 * 10.0)) as [v1| |];
    cbn [bind] in H; try discriminate H.
  destruct (to_int16 _) as [s1| |]; cbn [bind] in H; try discriminate H.
  inversion H; subst g1; clear H.
  cbn [g_wheel_base set_g_steering_angle_deg_i16 set_g_target_velocity_ui16].
  destruct (to_uint16 (linear_x second * 3.6 * 10.0)) as [v2| |];
    cbn [bind]; [|reflexivity|reflexivity].
  destruct (to_int16 _) as [s2| |]; reflexivity.
Qed.

(** X8: a command of the source that is not selected does not reach the
    frame.  With AutomodeFlag clear an autonomous command changes nothing of
    what the loop reads for the frame; while AutomodeFlag stays set a manual
    message changes neither the velocity nor the steering angle read. *)
Theorem unselected_source_is_ignored (g g' : Globals)
    (brake_static : option Z) :
  (forall msg,
     g_automode g = false -> twist_callback msg g = Ok g' ->
     select g' brake_static = select g brake_static)
  /\ (forall msg,
        g_automode g = true -> g_automode g' = true ->
        current_joy_callback msg g = Ok g' ->
        let '(_, _, velocity', steering', _) := select g' brake_static in
        let '(_, _, velocity, steering, _) := select g brake_static in
        velocity' = velocity /\ steering' = steering).
Proof.
  split.
  - intros msg Hflag H. apply twist_cmd_callback_frame in H.
    destruct H as (Hm & Ha & Hsh & Hb & Hv & Hs).
    unfold select. now rewrite Hm, Ha, Hsh, Hb, Hv, Hs, Hflag.
  - intros msg Hflag Hflag' H. apply current_joy_callback_frame in H.
    destruct H as (_ & Hv & Hs).
    unfold select. rewrite Hflag, Hflag'. auto.
Qed.

(** X9: AutomodeFlag is only ever set by the resume button: when a round
    of callbacks takes the flag from clear to set, one of the messages was a
    joystick message with button 12 pressed. *)
Theorem automode_only_by_resume (callbacks : list message) :
  forall g g',
    spin callbacks g = Ok g' ->
    g_automode g = false -> g_automode g' = true ->
    exists msg, In (joy msg) callbacks /\ button msg 12 = 1%Z.
Proof.
  induction callbacks as [|m rest IH]; intros g g' H Hoff Hon.
  - inversion H. congruence.
  - destruct m as [msg|msg|msg]; cbn [spinOnce] in H.
    + destruct (twist_cmd_callback _ msg g) as [g1| |] eqn:E;
        cbn [bind] in H; try discriminate H.
      apply twist_cmd_callback_frame in E. destruct E as (_ & Ha & _).
      destruct (IH g1 g' H) as (j & Hin & Hj); [congruence|exact Hon|].
      exists j. split; [now right|exact Hj].
    + cbn [current_vel_callback bind] in H.
      destruct (IH _ g' H) as (j & Hin & Hj); [exact Hoff|exact Hon|].
      exists j. split; [now right|exact Hj].
    + destruct (current_joy_callback msg g) as [g1| |] eqn:E;
        cbn [bind] in H; try discriminate H.
      apply current_joy_callback_ok in E. destruct E as (Ha & _).
      destruct (Z.eqb_spec (button msg 12) 1) as [H12|H12].
      * exists msg. split; [now left|exact H12].
      * assert (Hoff1 : g_automode g1 = false).
        { rewrite Ha, Hoff. now destruct (joy_cancel msg). }
        destruct (IH g1 g' H Hoff1 Hon) as (j & Hin & Hj).
        exists j. split; [now right|exact Hj].
Qed.

End Arbitration.

Lemma auto_fields_within_one_unit_witness :
  exists g',
    twist_cmd_callback constant_steering (mkTwist 0.1875 0) startup_globals
      = Ok g'
    /\ ((- (1 # 10)
         < inject_Z (g_target_velocity_ui16 g') / 10 - 0.1875 * 3.6)
        /\ (inject_Z (g_target_velocity_ui16 g') / 10 - 0.1875 * 3.6
            < 1 # 10))%Q.
Proof.
  eexists. split; [vm_compute; reflexivity|].
  refine (proj1 (auto_fields_within_one_unit constant_steering
                   (mkTwist 0.1875 0) startup_globals _ _)).
  vm_compute. reflexivity.
Defined.

Lemma auto_command_last_write_wins_witness :
  twist_cmd_callback constant_steering (mkTwist 2 0.1) startup_globals
  = Ok (set_g_steering_angle_deg_i16 (-123)
          (set_g_target_velocity_ui16 72 startup_globals))
  /\ twist_cmd_callback constant_steering (mkTwist 0.1875 0)
       (set_g_steering_angle_deg_i16 (-123)
          (set_g_target_velocity_ui16 72 startup_globals))
     = twist_cmd_callback constant_steering (mkTwist 0.1875 0)
         startup_globals.
Proof.
  split; [vm_compute; reflexivity|].
  apply (auto_command_last_write_wins constant_steering (mkTwist 2 0.1)).
  vm_compute. reflexivity.
Defined.

Lemma unselected_source_is_ignored_witness :
  (exists g',
     twist_cmd_callback constant_steering (mkTwist 2 0.1) startup_globals
       = Ok g'
     /\ select g' None = select startup_globals None)
  /\ (exists g',
        current_joy_callback gentle_event auto_globals = Ok g'
        /\ fst (fst (select g' None)) = fst (fst (select auto_globals None))).
Proof.
  split.
  - eexists. split; [vm_compute; reflexivity|].
    refine (proj1 (unselected_source_is_ignored constant_steering
                     startup_globals _ None) (mkTwist 2 0.1) _ _).
    + reflexivity.
    + vm_compute. reflexivity.
  - eexists. split; [vm_compute; reflexivity|].
    match goal with
    | |- fst (fst (select ?g1 None)) = _ =>
        assert (E : current_joy_callback gentle_event auto_globals = Ok g1)
          by (vm_compute; reflexivity);
        pose proof (proj2 (unselected_source_is_ignored constant_steering
                             auto_globals g1 None) gentle_event
                      eq_refl eq_refl E) as H
    end.
    cbv beta iota delta [select] in H. destruct H as [Hv Hs].
    vm_compute. reflexivity.
Defined.

Lemma automode_only_by_resume_witness :
  exists msg,
    In (joy msg) [joy emergency_event; joy resume_event]
    /\ button msg 12 = 1%Z.
Proof.
  refine (automode_only_by_resume constant_steering
            [joy emergency_event; joy resume_event] startup_globals _ _ _ _).
  - vm_compute. reflexivity.
  - reflexivity.
  - reflexivity.
Defined.

(** ** Further properties of the two background threads *)

Section Background.

Variable computeTargetSteeringAngleDegree : Q -> Q -> Q -> Q.
Variable translateCanData : Z -> list string -> Z -> Q * Z.
Variable RET_NO_PUBLISH : Q.
Variable msb_first : bool.

Local Abbreviation read_line :=
  (readCanData_line translateCanData RET_NO_PUBLISH).
Local Abbreviation read_pass :=
  (readCanData_pass translateCanData RET_NO_PUBLISH).
Local Abbreviation exec_step :=
  (exec computeTargetSteeringAngleDegree translateCanData RET_NO_PUBLISH
     msb_first).
Local Abbreviation run_steps :=
  (run computeTargetSteeringAngleDegree translateCanData RET_NO_PUBLISH
     msb_first).

Lemma set_g_mode_back (g : Globals) (new_mode : Z) :
  set_g_mode (g_mode g) (set_g_mode new_mode g) = g.
Proof. now destruct g. Qed.

(** X10: a telemetry line of three tokens or more whose second token
    [std::stoi] accepts is decoded: the decoder gets the identifier, the
    tokens after the third and the current mode; the mode it returns is
    stored, no other variable changes, and the value is published unless it
    equals RET_NO_PUBLISH. *)
Theorem readCanData_line_decodes (raw_data : string) (g : Globals)
    (interface id_token length_token : string) (payload : list string)
    (id : Z) :
  ymc.splitString raw_data
  = interface :: id_token :: length_token :: payload ->
  stoi id_token = Ok id ->
  read_line raw_data g
  = Ok (set_g_mode (snd (translateCanData id payload (g_mode g))) g,
        if Qeq_bool (fst (translateCanData id payload (g_mode g)))
             RET_NO_PUBLISH
        then None
        else Some (fst (translateCanData id payload (g_mode g)))).
Proof.
  intros Htok Hid. unfold readCanData_line.
  destruct raw_data as [|c s]; [discriminate Htok|].
  change (0 <? String.length (String c s))%nat with true. cbv iota.
  rewrite Htok. unfold erase_front, at_.
  cbn [List.length Nat.leb skipn nth_error bind]. rewrite Hid. cbn [bind].
  destruct (translateCanData id payload (g_mode g)) as [v new_mode].
  cbn [fst snd]. now destruct (Qeq_bool v RET_NO_PUBLISH).
Qed.

(** X11: a non-empty line of fewer than three tokens makes the reader
    undefined, and on a line of three tokens or more the exception
    [std::stoi] raises on the second token leaves the reader: neither line
    is skipped. *)
Theorem readCanData_line_rejects (raw_data : string) (g : Globals) :
  raw_data <> EmptyString ->
  ((List.length (ymc.splitString raw_data) < 3)%nat ->
   read_line raw_data g = Undefined)
  /\ (forall e,
        (3 <= List.length (ymc.splitString raw_data))%nat ->
        stoi (nth 1 (ymc.splitString raw_data) EmptyString) = Throw e ->
        read_line raw_data g = Throw e).
Proof.
  intros Hne. split.
  - now apply readCanData_line_short.
  - intros e. now apply readCanData_line_bad_identifier.
Qed.

Lemma fgets_chars_split (k : nat) :
  forall s buf rest,
    fgets_chars k s = (buf, rest) ->
    s = (buf ++ rest)%string /\ (String.length buf <= k)%nat
    /\ (s <> EmptyString -> (0 < k)%nat -> (0 < String.length buf)%nat).
Proof.
  induction k as [|k IH]; intros s buf rest H.
  - cbn in H. inversion H; subst. repeat split; try lia. reflexivity.
  - destruct s as [|c s']; cbn [fgets_chars] in H.
    + inversion H; subst. repeat split; cbn; try lia. congruence.
    + destruct (Ascii.eqb c "010").
      * inversion H; subst. repeat split; cbn; lia.
      * destruct (fgets_chars k s') as [l r] eqn:E.
        inversion H; subst. destruct (IH s' l rest E) as (Hs & Hl & _).
        repeat split; cbn; try lia. now rewrite <- Hs.
Qed.

Lemma fgets_chars_line (k : nat) :
  forall line tail,
    has_newline line = false -> (String.length line < k)%nat ->
    fgets_chars k (line ++ newline ++ tail)%string
    = ((line ++ newline)%string, tail).
Proof.
  induction k as [|k IH]; intros line tail Hnl Hlen; [lia|].
  destruct line as [|c line']; [reflexivity|].
  cbn [has_newline] in Hnl. apply orb_false_iff in Hnl.
  destruct Hnl as [Hc Hnl]. cbn [String.length] in Hlen.
  cbn [append fgets_chars]. rewrite Hc.
  change (line' ++ String (ascii_of_nat 10) tail)%string
    with (line' ++ newline ++ tail)%string.
  rewrite (IH line' tail Hnl) by lia. reflexivity.
Qed.

Lemma length_append (a b : string) :
  String.length (a ++ b) = (String.length a + String.length b)%nat.
Proof. induction a as [|c a IH]; cbn; [reflexivity|now rewrite IH]. Qed.

(** X12: a pass of the reader on a stream that has unread text takes a
    non-empty chunk of at most 63 characters off its front, loses nothing,
    and so leaves strictly less to read. *)
Theorem reader_takes_one_chunk (m m' : Main) (out : list action)
    (unread : string) :
  candump m = Some unread -> unread <> EmptyString ->
  g_terminate_thread (globals m) = false ->
  read_pass m = (out, Ok m') ->
  exists buf rest,
    candump m' = Some rest /\ unread = (buf ++ rest)%string
    /\ (0 < String.length buf <= 63)%nat
    /\ (String.length rest < String.length unread)%nat.
Proof.
  intros Hc Hne Hrun H. unfold readCanData_pass in H. rewrite Hc in H.
  unfold fgets in H. destruct unread as [|c s]; [contradiction|].
  destruct (fgets_chars (64 - 1) (String c s)) as [buf rest] eqn:E.
  rewrite Hrun in H.
  apply fgets_chars_split in E. destruct E as (Hs & Hl & Hpos).
  assert (Hm' : candump m' = Some rest).
  { destruct (readCanData_line _ _ buf (globals m)) as [[g' [v|]]| |];
      inversion H; reflexivity. }
  exists buf, rest. split; [exact Hm'|]. split; [exact Hs|].
  assert (0 < String.length buf)%nat by (apply Hpos; [discriminate|cbn; lia]).
  split; [cbn in Hl; lia|].
  rewrite Hs, length_append. lia.
Qed.

(** X13: a line of fewer than 63 characters that ends in a newline is
    handed to the line decoder whole, newline included, and the text after
    it is left for the next pass. *)
Theorem reader_takes_whole_line (m : Main) (line tail : string) :
  has_newline line = false -> (String.length line < 63)%nat ->
  candump m = Some (line ++ newline ++ tail)%string ->
  g_terminate_thread (globals m) = false ->
  read_pass m
  = match read_line (line ++ newline)%string (globals m) with
    | Ok (g, Some v) =>
        ([publish "base_link" v],
         Ok (mkMain g (brake m) (heart_beat m) (Some tail)))
    | Ok (g, None) => ([], Ok (mkMain g (brake m) (heart_beat m) (Some tail)))
    | Throw e => ([], Throw e)
    | Undefined => ([], Undefined)
    end.
Proof.
  intros Hnl Hlen Hc Hrun. unfold readCanData_pass. rewrite Hc.
  unfold fgets.
  assert (E : fgets_chars (64 - 1) (line ++ newline ++ tail)
              = ((line ++ newline)%string, tail))
    by (apply fgets_chars_line; [exact Hnl|cbn; lia]).
  destruct (line ++ newline ++ tail)%string as [|c s] eqn:Es.
  - destruct line; discriminate Es.
  - rewrite E, Hrun. reflexivity.
Qed.

(** X14: a keystroke and a pass of the reader write no variable but
    [g_mode]: they send no frame and leave the two statics of the loop and
    every other file-scope variable as they are. *)
Theorem background_steps_write_mode_only (s : step) (m m' : Main)
    (out : list action) :
  (forall callbacks, s <> loop_iteration callbacks) ->
  exec_step s m = (out, Ok m') ->
  frames out = []
  /\ brake m' = brake m /\ heart_beat m' = heart_beat m
  /\ set_g_mode (g_mode (globals m)) (globals m') = globals m.
Proof.
  intros Hs H. destruct s as [callbacks|c|]; cbn [exec] in H.
  - now destruct (Hs callbacks).
  - inversion H; subst; clear H. cbn. repeat split; trivial.
    unfold changeMode_key.
    destruct (Ascii.eqb c " "), (Ascii.eqb c "s"); cbn;
      now destruct (globals m).
  - unfold readCanData_pass in H.
    destruct (candump m) as [unread|]; [|discriminate H].
    destruct (fgets 64 unread) as [[buf rest]|];
      [|inversion H; subst; repeat split; trivial;
        now destruct (globals m')].
    destruct (g_terminate_thread (globals m));
      [inversion H; subst; repeat split; trivial;
       now destruct (globals m')|].
    unfold readCanData_line in H.
    destruct (0 <? String.length buf)%nat;
      [|inversion H; subst; repeat split; trivial;
        now destruct (globals m)].
    destruct (erase_front _ 3) as [data| |]; cbn [bind] in H;
      try discriminate H.
    destruct (at_ _ 1) as [tok| |]; cbn [bind] in H; try discriminate H.
    destruct (stoi tok) as [id| |]; cbn [bind] in H; try discriminate H.
    destruct (translateCanData id data (g_mode (globals m))) as [v md].
    destruct (negb (Qeq_bool v RET_NO_PUBLISH));
      inversion H; subst; cbn; repeat split; trivial;
      apply set_g_mode_back.
Qed.

Lemma set_g_mode_twice (g : Globals) (a b : Z) :
  set_g_mode b (set_g_mode a g) = set_g_mode b g.
Proof. reflexivity. Qed.

Lemma changeMode_key_back (c : ascii) (g : Globals) :
  set_g_mode (g_mode g) (changeMode_key c g) = g.
Proof.
  unfold changeMode_key.
  destruct (Ascii.eqb c " "), (Ascii.eqb c "s"); now destruct g.
Qed.

Lemma find_snoc {A : Type} (f : A -> bool) (l : list A) (a : A) :
  find f (l ++ [a])
  = match find f l with
    | Some x => Some x
    | None => if f a then Some a else None
    end.
Proof.
  induction l as [|x l IH]; cbn; [reflexivity|].
  now destruct (f x).
Qed.

(** X15: after any sequence of keystrokes the mode is the one selected by
    the last space or 's' among them, and the mode as it was when there is
    none; other keys are ignored, nothing is sent, and no other variable
    changes. *)
Theorem last_mode_key_wins (keys : list ascii) :
  forall m,
    exists m',
      run_steps (map key keys) m = ([], Ok m')
      /\ g_mode (globals m')
         = match find is_mode_key (rev keys) with
           | Some c => mode_of_key c
           | None => g_mode (globals m)
           end
      /\ brake m' = brake m /\ heart_beat m' = heart_beat m
      /\ candump m' = candump m
      /\ set_g_mode (g_mode (globals m)) (globals m') = globals m.
Proof.
  induction keys as [|c rest IH]; intros m.
  - exists m. cbn. repeat split; trivial. now destruct (globals m).
  - cbn [map run exec].
    destruct (IH (mkMain (changeMode_key c (globals m)) (brake m)
                    (heart_beat m) (candump m)))
      as (m' & Hrun & Hmode & Hb & Hh & Hc & Hg).
    exists m'. rewrite Hrun. cbn [app globals brake heart_beat candump] in *.
    split; [reflexivity|]. split; [|repeat split; trivial].
    + rewrite Hmode. cbn [rev]. rewrite find_snoc.
      destruct (find is_mode_key (rev rest)); [reflexivity|].
      unfold changeMode_key, is_mode_key, mode_of_key.
      destruct (Ascii.eqb_spec c " ") as [->|Hsp]; [reflexivity|].
      destruct (Ascii.eqb c "s") eqn:Es; cbn; rewrite ?Es; reflexivity.
    + rewrite <- (set_g_mode_twice _ (g_mode (changeMode_key c (globals m)))).
      rewrite Hg. apply changeMode_key_back.
Qed.

End Background.

Lemma readCanData_line_decodes_witness :
  readCanData_line mode_3_feedback (-1)%Q sample_line startup_globals
  = Ok (set_g_mode 3 startup_globals, Some 1.5%Q).
Proof.
  apply (readCanData_line_decodes mode_3_feedback (-1)%Q sample_line
           startup_globals "can0" "200" "[8]"
           ["08"; "00"; "00"; "00"; "01"; "00"; "01"; "29"]%string 200).
  - vm_compute. reflexivity.
  - vm_compute. reflexivity.
Defined.

Lemma readCanData_line_rejects_witness :
  readCanData_line no_feedback (-1)%Q short_line startup_globals = Undefined
  /\ readCanData_line no_feedback (-1)%Q malformed_line startup_globals
     = Throw invalid_argument
  /\ readCanData_line no_feedback (-1)%Q huge_identifier_line startup_globals
     = Throw out_of_range.
Proof.
  split; [|split].
  - apply (readCanData_line_rejects no_feedback (-1)%Q short_line).
    + vm_compute. discriminate.
    + vm_compute. lia.
  - apply (readCanData_line_rejects no_feedback (-1)%Q malformed_line).
    + vm_compute. discriminate.
    + vm_compute. lia.
    + vm_compute. reflexivity.
  - apply (readCanData_line_rejects no_feedback (-1)%Q huge_identifier_line).
    + vm_compute. discriminate.
    + vm_compute. lia.
    + vm_compute. reflexivity.
Defined.

Lemma reader_takes_one_chunk_witness :
  exists buf rest,
    sample_line = (buf ++ rest)%string
    /\ (0 < String.length buf <= 63)%nat
    /\ (String.length rest < String.length sample_line)%nat.
Proof.
  destruct (reader_takes_one_chunk no_feedback (-1)%Q (reading sample_line)
              (reading EmptyString) [] sample_line)
    as (buf & rest & _ & Hsplit & Hlen & Hless).
  - reflexivity.
  - vm_compute. discriminate.
  - reflexivity.
  - vm_compute. reflexivity.
  - exists buf, rest. auto.
Defined.

Lemma reader_takes_whole_line_witness :
  readCanData_pass mode_3_feedback (-1)%Q
    (reading (sample_text ++ newline ++ "can0")%string)
  = ([publish "base_link" 1.5%Q],
     Ok (mkMain (set_g_mode 3 startup_globals) None 0 (Some "can0"%string))).
Proof.
  rewrite (reader_takes_whole_line mode_3_feedback (-1)%Q
             (reading (sample_text ++ newline ++ "can0")%string)
             sample_text "can0").
  - vm_compute. reflexivity.
  - vm_compute. reflexivity.
  - vm_compute. lia.
  - reflexivity.
  - reflexivity.
Defined.

Lemma background_steps_write_mode_only_witness :
  frames [] = []
  /\ set_g_mode (g_mode startup_globals) (set_g_mode 3 startup_globals)
     = startup_globals.
Proof.
  destruct (background_steps_write_mode_only no_steering no_feedback (-1)%Q
              true (key " ") (reading EmptyString)
              (mkMain (set_g_mode 3 startup_globals) None 0
                 (Some EmptyString)) [])
    as (Hf & _ & _ & Hg).
  - intros callbacks. discriminate.
  - vm_compute. reflexivity.
  - split; [exact Hf|exact Hg].
Defined.

(** ** Further properties of the control loop *)

Section Loop.

Variable computeTargetSteeringAngleDegree : Q -> Q -> Q -> Q.
Variable translateCanData : Z -> list string -> Z -> Q * Z.
Variable RET_NO_PUBLISH : Q.
Variable msb_first : bool.

Local Abbreviation spin := (spinOnce computeTargetSteeringAngleDegree).
Local Abbreviation exec_step :=
  (exec computeTargetSteeringAngleDegree translateCanData RET_NO_PUBLISH
     msb_first).
Local Abbreviation run_steps :=
  (run computeTargetSteeringAngleDegree translateCanData RET_NO_PUBLISH
     msb_first).
Local Abbreviation run_main :=
  (main computeTargetSteeringAngleDegree translateCanData RET_NO_PUBLISH
     msb_first).

(** X16: no frame [main] transmits carries a brake level: byte 6 is 0 in
    every one of them, whatever the manual handler stores in [g_brake]
    during the run. *)
Theorem brake_is_never_transmitted (p : Params)
    (popen_result : option string) (schedule : list step) :
  Forall (fun data => brake_byte data = 0)
    (frames (fst (run_main p popen_result schedule))).
Proof.
  apply Forall_forall. intros data Hin.
  now apply main_brake_byte_zero in Hin.
Qed.

Lemma twist_cmd_callback_forget (msg : TwistStamped) (g : Globals) :
  twist_cmd_callback computeTargetSteeringAngleDegree msg
    (forget_current_vel g)
  = map_result forget_current_vel
      (twist_cmd_callback computeTargetSteeringAngleDegree msg g).
Proof.
  unfold twist_cmd_callback.
  cbn [forget_current_vel set_g_current_vel_kmph g_wheel_base].
  destruct (to_uint16 _) as [v| |]; cbn [bind map_result]; trivial.
  destruct (to_int16 _) as [s| |]; cbn [bind map_result]; trivial.
Qed.

Lemma current_joy_callback_forget (msg : Joy) (g : Globals) :
  current_joy_callback msg (forget_current_vel g)
  = map_result forget_current_vel (current_joy_callback msg g).
Proof.
  unfold current_joy_callback.
  destruct (cancel_requested msg) as [c| |]; cbn [bind map_result]; trivial.
  destruct (manual_target_velocity msg) as [v| |]; cbn [bind map_result];
    trivial.
  destruct (manual_target_steering msg) as [a| |]; cbn [bind map_result];
    trivial.
  destruct (brake_level msg) as [b| |]; cbn [bind map_result]; trivial.
  destruct (index (buttons msg) 5) as [b5| |]; cbn [bind map_result];
    trivial.
  destruct (to_uint16 _) as [vi| |]; cbn [bind map_result]; trivial.
  destruct (to_int16 _) as [si| |]; cbn [bind map_result]; trivial.
  destruct (index (buttons msg) 12) as [b12| |]; cbn [bind map_result];
    trivial.
  destruct c, (b12 =? 1); reflexivity.
Qed.

Lemma spinOnce_forget (callbacks : list message) :
  forall g1 g2,
    forget_current_vel g1 = forget_current_vel g2 ->
    map_result forget_current_vel (spin callbacks g1)
    = map_result forget_current_vel
        (spin (filter (fun msg => negb (is_current_velocity msg)) callbacks)
           g2).
Proof.
  induction callbacks as [|m rest IH]; intros g1 g2 Hg.
  - cbn. now rewrite Hg.
  - destruct m as [msg|msg|msg]; cbn [filter is_current_velocity negb spinOnce].
    + pose proof (twist_cmd_callback_forget msg g1) as H1.
      pose proof (twist_cmd_callback_forget msg g2) as H2.
      rewrite Hg, H2 in H1.
      destruct (twist_cmd_callback _ msg g1) as [g1'| |],
        (twist_cmd_callback _ msg g2) as [g2'| |];
        cbn [map_result bind] in *; try discriminate H1; trivial;
        try congruence.
      apply IH. congruence.
    + cbn [current_vel_callback bind]. apply IH. exact Hg.
    + pose proof (current_joy_callback_forget msg g1) as H1.
      pose proof (current_joy_callback_forget msg g2) as H2.
      rewrite Hg, H2 in H1.
      destruct (current_joy_callback msg g1) as [g1'| |],
        (current_joy_callback msg g2) as [g2'| |];
        cbn [map_result bind] in *; try discriminate H1; trivial;
        try congruence.
      apply IH. congruence.
Qed.

Lemma forget_fields (g1 g2 : Globals) :
  forget_current_vel g1 = forget_current_vel g2 ->
  g_mode g1 = g_mode g2 /\ g_shift g1 = g_shift g2
  /\ g_automode g1 = g_automode g2 /\ g_brake g1 = g_brake g2
  /\ g_target_velocity_ui16 g1 = g_target_velocity_ui16 g2
  /\ g_manual_target_velocity_ui16 g1 = g_manual_target_velocity_ui16 g2
  /\ g_steering_angle_deg_i16 g1 = g_steering_angle_deg_i16 g2
  /\ g_manual_steering_angle_deg_i16 g1 = g_manual_steering_angle_deg_i16 g2
  /\ g_terminate_thread g1 = g_terminate_thread g2.
Proof.
  destruct g1, g2. unfold forget_current_vel, set_g_current_vel_kmph. cbn.
  intros [= -> -> -> -> -> -> -> -> -> -> -> -> ->]. repeat split.
Qed.

Lemma set_g_mode_forget (g1 g2 : Globals) (new_mode : Z) :
  forget_current_vel g1 = forget_current_vel g2 ->
  forget_current_vel (set_g_mode new_mode g1)
  = forget_current_vel (set_g_mode new_mode g2).
Proof.
  destruct g1, g2. unfold forget_current_vel, set_g_current_vel_kmph. cbn.
  intros [= -> -> -> -> -> -> -> -> -> -> -> -> ->]. reflexivity.
Qed.

Lemma set_g_terminate_thread_forget (g1 g2 : Globals) (flag : bool) :
  forget_current_vel g1 = forget_current_vel g2 ->
  forget_current_vel (set_g_terminate_thread flag g1)
  = forget_current_vel (set_g_terminate_thread flag g2).
Proof.
  destruct g1, g2. unfold forget_current_vel, set_g_current_vel_kmph. cbn.
  intros [= -> -> -> -> -> -> -> -> -> -> -> -> ->]. reflexivity.
Qed.

Lemma exec_forget (s : step) (m1 m2 : Main) :
  forget_display m1 = forget_display m2 ->
  fst (exec_step s m1) = fst (exec_step (without_current_velocity s) m2)
  /\ map_result forget_display (snd (exec_step s m1))
     = map_result forget_display
         (snd (exec_step (without_current_velocity s) m2)).
Proof.
  intros Hm.
  assert (Hg : forget_current_vel (globals m1)
               = forget_current_vel (globals m2))
    by (unfold forget_display in Hm; congruence).
  assert (Hb : brake m1 = brake m2)
    by (unfold forget_display in Hm; congruence).
  assert (Hh : heart_beat m1 = heart_beat m2)
    by (unfold forget_display in Hm; congruence).
  assert (Hc : candump m1 = candump m2)
    by (unfold forget_display in Hm; congruence).
  pose proof (forget_fields _ _ Hg)
    as (Emode & Eshift & Eauto & Ebrake & Ev & Emv & Es & Ems & Eterm).
  destruct s as [callbacks|c|]; cbn [without_current_velocity exec].
  - unfold loop_body, select. cbn [fst snd].
    rewrite Emode, Eshift, Eauto, Ebrake, Ev, Emv, Es, Ems, Hb, Hh.
    split; [reflexivity|].
    pose proof (spinOnce_forget callbacks _ _ Hg) as Hspin.
    destruct (spinOnce _ callbacks (globals m1)) as [g1'| |],
      (spinOnce _ (filter _ callbacks) (globals m2)) as [g2'| |];
      cbn [map_result bind] in *; try discriminate Hspin; trivial;
      try congruence.
    unfold forget_display. cbn. congruence.
  - cbn [fst snd map_result]. split; [reflexivity|].
    unfold forget_display. cbn. rewrite Hb, Hh, Hc. f_equal. f_equal.
    unfold changeMode_key.
    destruct (Ascii.eqb c " "), (Ascii.eqb c "s");
      auto using set_g_mode_forget.
  - unfold readCanData_pass. rewrite <- Hc, <- Eterm.
    destruct (candump m1) as [unread|]; [|split; reflexivity].
    destruct (fgets 64 unread) as [[buf rest]|].
    2: { cbn [fst snd map_result]. split; [reflexivity|]. now rewrite Hm. }
    destruct (g_terminate_thread (globals m1)).
    { cbn [fst snd map_result]. split; [reflexivity|]. now rewrite Hm. }
    unfold readCanData_line. rewrite <- Emode.
    destruct (0 <? String.length buf)%nat.
    2: { cbn [fst snd map_result]. split; [reflexivity|].
         unfold forget_display. cbn. congruence. }
    destruct (erase_front _ 3) as [data| |]; cbn [bind];
      [|split; reflexivity|split; reflexivity].
    destruct (at_ _ 1) as [tok| |]; cbn [bind];
      [|split; reflexivity|split; reflexivity].
    destruct (stoi tok) as [id| |]; cbn [bind];
      [|split; reflexivity|split; reflexivity].
    destruct (translateCanData id data (g_mode (globals m1))) as [v md].
    destruct (negb (Qeq_bool v RET_NO_PUBLISH)); cbn [fst snd map_result];
      (split; [reflexivity|]); unfold forget_display; cbn;
      rewrite Hb, Hh; f_equal; f_equal; now apply set_g_mode_forget.
Qed.

Lemma run_forget (schedule : list step) :
  forall m1 m2,
    forget_display m1 = forget_display m2 ->
    fst (run_steps schedule m1)
    = fst (run_steps (map without_current_velocity schedule) m2)
    /\ map_result forget_display (snd (run_steps schedule m1))
       = map_result forget_display
           (snd (run_steps (map without_current_velocity schedule) m2)).
Proof.
  induction schedule as [|s rest IH]; intros m1 m2 Hm.
  - cbn. split; [reflexivity|]. now rewrite Hm.
  - cbn [map run].
    destruct (exec_forget s m1 m2 Hm) as [Hout Hres].
    destruct (exec_step s m1) as [o1 r1],
      (exec_step (without_current_velocity s) m2) as [o2 r2].
    cbn [fst snd] in Hout, Hres. subst o2.
    destruct r1 as [m1'| |], r2 as [m2'| |]; cbn [map_result] in Hres;
      try discriminate Hres; try (split; [reflexivity|exact Hres]).
    assert (Hm' : forget_display m1' = forget_display m2') by congruence.
    destruct (IH m1' m2' Hm') as [Hout' Hres'].
    destruct (run_steps rest m1') as [o1' r1'],
      (run_steps (map without_current_velocity rest) m2') as [o2' r2'].
    cbn [fst snd] in *. split; [now rewrite Hout'|exact Hres'].
Qed.

(** X17: the [current_velocity] messages have no part in what the node
    sends: with them taken out of every round of callbacks, [main] produces
    the same frames and the same published feedback, in the same order, and
    ends the same way. *)
Theorem current_velocity_is_display_only (p : Params)
    (popen_result : option string) (schedule : list step) :
  fst (run_main p popen_result schedule)
  = fst (run_main p popen_result (map without_current_velocity schedule))
  /\ map_result forget_display (snd (run_main p popen_result schedule))
     = map_result forget_display
         (snd (run_main p popen_result
                 (map without_current_velocity schedule))).
Proof.
  unfold main.
  destruct (run_forget schedule
              (mkMain (initial_globals p) None 0 popen_result)
              (mkMain (initial_globals p) None 0 popen_result) eq_refl)
    as [Hout Hres].
  destruct (run_steps schedule _) as [o1 r1],
    (run_steps (map without_current_velocity schedule) _) as [o2 r2].
  cbn [fst snd] in Hout, Hres. subst o2.
  destruct r1 as [m1| |], r2 as [m2| |]; cbn [map_result] in Hres;
    try discriminate Hres; cbn [fst snd map_result];
    (split; [reflexivity|]); trivial.
  assert (Hm : forget_display m1 = forget_display m2) by congruence.
  pose proof (f_equal globals Hm) as Hg. pose proof (f_equal brake Hm) as Hb.
  pose proof (f_equal heart_beat Hm) as Hh.
  pose proof (f_equal candump Hm) as Hc.
  unfold forget_display in *. cbn [globals brake heart_beat candump] in *.
  rewrite Hb, Hh, Hc. do 2 f_equal.
  now apply set_g_terminate_thread_forget.
Qed.

End Loop.
